(** * Voice Dataset Collector ([app.py]): a shallow embedding and its properties

    The program is a Streamlit script: a recording or an uploaded file is
    persisted under a fresh UUID, transcribed by Whisper, appended to the
    CSV ledger [data/metadata.csv] and the audio tree and the ledger are
    pushed to a Hugging Face dataset repository.

    The embedding threads one [World] (local files, remote hub, the trace of
    user-interface and hub calls, the source of UUIDs) through a state and
    exception monad.  The external collaborators the script calls (pandas'
    CSV codec, the Whisper model) are interfaces, and so is what scipy does
    with data too long for a RIFF file; numpy's [frombuffer], scipy's
    [wavfile.write] on data that fits, [uuid.UUID.__str__], [str.split],
    [str.lower] and [os.path.join] are written out. *)

From Stdlib Require Import ZArith Lia List.
From Stdlib.Strings Require Import Ascii String Byte.
From stdpp Require Import base gmap strings list fin_maps pretty.

Local Open Scope Z_scope.

(** Python [bytes]. *)
Abbreviation bytes := (list byte).

#[global] Instance byte_eq_dec : EqDecision byte := Byte.byte_eq_dec.

(* ===================================================================== *)
(** * Part I: definitions *)
(* ===================================================================== *)

(** ** Python strings, [os.path] and bytes *)

Module Py.

(** [s.split(sep)] for a one-character separator: never empty, one more
    piece than there are separators. *)
Fixpoint split (sep : ascii) (s : string) : list string :=
  match s with
  | EmptyString => [EmptyString]
  | String c s' =>
      if Ascii.eqb c sep then EmptyString :: split sep s'
      else match split sep s' with
           | [] => [String c EmptyString]
           | piece :: pieces => String c piece :: pieces
           end
  end.

(** [l[-1]]; the default is returned only for the empty list, where Python
    raises [IndexError] ([split] never returns it). *)
Definition last_item (l : list string) : string := List.last l EmptyString.

(** [c.lower()] on one character.  Letters [A]-[Z] move to [a]-[z]; the
    characters of a [string] are single bytes, and bytes outside ASCII are
    kept (Python applies the Unicode mapping to whole code points there). *)
Definition lower_char (c : ascii) : ascii :=
  let n := N_of_ascii c in
  if ((65 <=? n) && (n <=? 90))%N then ascii_of_N (n + 32) else c.

Fixpoint lower (s : string) : string :=
  match s with
  | EmptyString => EmptyString
  | String c s' => String (lower_char c) (lower s')
  end.

Definition startswith_sep (s : string) : bool :=
  match s with
  | String c _ => Ascii.eqb c "/"
  | EmptyString => false
  end.

Fixpoint endswith_sep (s : string) : bool :=
  match s with
  | EmptyString => false
  | String c EmptyString => Ascii.eqb c "/"
  | String _ s' => endswith_sep s'
  end.

(** What [posixpath.join] puts between [path] and a relative component:
    nothing after an empty path or one that ends in a separator. *)
Definition joiner (path : string) : string :=
  if String.eqb path EmptyString || endswith_sep path then EmptyString
  else "/".

(** One step of [posixpath.join]'s loop. *)
Definition join2 (path b : string) : string :=
  if startswith_sep b then b else path +:+ joiner path +:+ b.

(** [os.path.join(a, *p)]. *)
Definition os_path_join (a : string) (p : list string) : string :=
  fold_left join2 p a.

(** [s.endswith(suffix)], as a proposition. *)
Definition endswith (s suffix : string) : Prop :=
  exists stem, s = stem +:+ suffix.

(** Characters of a string that are not [sep]. *)
Fixpoint sep_free (sep : ascii) (s : string) : bool :=
  match s with
  | EmptyString => true
  | String c s' => negb (Ascii.eqb c sep) && sep_free sep s'
  end.

(** The part of a name "after the last dot", following the words of the
    specification: the longest suffix that holds no dot (the whole name
    when it holds none).  [split] is not used. *)
Fixpoint after_last (sep : ascii) (s : string) : string :=
  match s with
  | EmptyString => EmptyString
  | String c s' =>
      if sep_free sep s'
      then (if Ascii.eqb c sep then s' else s)
      else after_last sep s'
  end.

(** A byte as its value in [0, 255], and back (modulo 256). *)
Definition Z_of_byte (b : byte) : Z := Z.of_N (Byte.to_N b).

Definition byte_of_Z (z : Z) : byte :=
  match Byte.of_N (Z.to_N (z mod 256)) with
  | Some b => b
  | None => x00
  end.

(** The bytes of an ASCII literal such as [b'RIFF']. *)
Definition b (s : string) : bytes := String.list_byte_of_string s.

(** [struct.pack('<H', n)] and [struct.pack('<I', n)]. *)
Definition pack_u16 (n : Z) : bytes :=
  [byte_of_Z n; byte_of_Z (n / 256)].

Definition pack_u32 (n : Z) : bytes :=
  [byte_of_Z n; byte_of_Z (n / 256); byte_of_Z (n / 65536);
   byte_of_Z (n / 16777216)].

Definition unpack_u16 (b0 b1 : byte) : Z :=
  Z_of_byte b0 + 256 * Z_of_byte b1.

Definition unpack_u32 (b0 b1 b2 b3 : byte) : Z :=
  Z_of_byte b0 + 256 * Z_of_byte b1 + 65536 * Z_of_byte b2
  + 16777216 * Z_of_byte b3.

End Py.

(** ** [uuid.UUID] *)

Module Uuid.

(** A UUID is 16 bytes ([uuid4] draws them from [os.urandom]). *)
Record UUID := mkUUID {
  uuid_bytes : bytes;
  uuid_len : length uuid_bytes = 16%nat
}.

Definition hex_digit (n : N) : ascii :=
  if (n <? 10)%N then ascii_of_N (48 + n) else ascii_of_N (87 + n).

(** ['%02x' % byte]. *)
Definition hex_byte (x : byte) : string :=
  let n := Byte.to_N x in
  String (hex_digit (n / 16)) (String (hex_digit (n mod 16)) EmptyString).

Fixpoint hex (bs : bytes) : string :=
  match bs with
  | [] => EmptyString
  | x :: bs' => hex_byte x +:+ hex bs'
  end.

(** [UUID.__str__]: the 32 hex digits in groups of 8-4-4-4-12. *)
Definition str (u : UUID) : string :=
  let bs := uuid_bytes u in
  hex (take 4 bs) +:+ "-" +:+ hex (take 2 (drop 4 bs)) +:+ "-"
  +:+ hex (take 2 (drop 6 bs)) +:+ "-" +:+ hex (take 2 (drop 8 bs)) +:+ "-"
  +:+ hex (drop 10 bs).

End Uuid.

(** ** Exceptions, the world and the monad of the script *)

(** A raised instance of (a subclass of) [Exception]: its class name and
    [str(e)]. *)
Record PyExc := mkExc { exc_type : string; exc_msg : string }.

(** Result of a call into an external collaborator. *)
Inductive called (A : Type) : Type :=
| Returned (a : A)
| Raised (e : PyExc).
Arguments Returned {A} a.
Arguments Raised {A} e.

(** ** pandas *)

Module Pd.

(** A frame: the ordered column labels and the rows, each row a dict from
    column label to value.  A missing value (NaN) is an absent key. *)
Record DataFrame := mkDataFrame {
  columns : list string;
  rows : list (gmap string string)
}.

(** [pd.DataFrame([record])] for one dict given by its items in order. *)
Definition DataFrame_of_record (items : list (string * string)) : DataFrame :=
  {| columns := map fst items; rows := [list_to_map items] |}.

(** [pd.concat([df1, df2], ignore_index=True)]: the rows of [df1] then those
    of [df2] under a fresh index; the columns are the union, those of [df1]
    first (outer join, unsorted). *)
Definition concat (df1 df2 : DataFrame) : DataFrame :=
  {| columns := columns df1 ++ list_difference (columns df2) (columns df1);
     rows := rows df1 ++ rows df2 |}.



End Pd.

(** ** The world *)

Inductive event : Type :=
| St (call text : string)            (* st.<call>(text) *)
| StAudio (data : bytes)             (* st.audio(data, ...) *)
| StDataframe (df : Pd.DataFrame)    (* st.dataframe(df) *)
| Print (text : string)
| Wrote (path : string) (data : bytes)                (* a local file written *)
| Transcribe (audio_path : string) (result : called string)
                                     (* model.transcribe and how it ended *)
| CreateRepo (repo_id repo_type : string) (exist_ok : bool) (token : string)
| UploadFolder (folder_path repo_id repo_type token : string)
| UploadFile (path_or_fileobj path_in_repo repo_id repo_type token : string).

(** The files of one remote repository, by path in the repository. *)
Abbreviation repo_files := (string -> option bytes).

Record World := mkWorld {
  fs : gmap string bytes;                       (* local files by path *)
  hub : gmap (string * string) repo_files;      (* (repo_type, repo_id) *)
  trace : list event;                           (* calls made, in order *)
  entropy : nat -> Uuid.UUID;                   (* what uuid4 will return *)
  drawn : nat                                   (* uuid4 calls so far *)
}.

Definition set_fs (f : gmap string bytes -> gmap string bytes) (w : World) :=
  {| fs := f (fs w); hub := hub w; trace := trace w;
     entropy := entropy w; drawn := drawn w |}.

Definition set_hub (f : gmap (string * string) repo_files ->
                        gmap (string * string) repo_files) (w : World) :=
  {| fs := fs w; hub := f (hub w); trace := trace w;
     entropy := entropy w; drawn := drawn w |}.

Definition log (e : event) (w : World) :=
  {| fs := fs w; hub := hub w; trace := trace w ++ [e];
     entropy := entropy w; drawn := drawn w |}.

Definition draw (w : World) :=
  {| fs := fs w; hub := hub w; trace := trace w;
     entropy := entropy w; drawn := S (drawn w) |}.

(** What running a piece of the script does: it returns or it raises, and
    either way leaves a world behind. *)
Inductive outcome (A : Type) : Type :=
| Ok (a : A) (w : World)
| Raise (e : PyExc) (w : World).
Arguments Ok {A} a w.
Arguments Raise {A} e w.

Definition M (A : Type) : Type := World -> outcome A.

Definition ret {A} (a : A) : M A := fun w => Ok a w.

Definition bind {A B} (m : M A) (k : A -> M B) : M B :=
  fun w => match m w with
           | Ok a w' => k a w'
           | Raise e w' => Raise e w'
           end.

Definition raise {A} (e : PyExc) : M A := fun w => Raise e w.

(** [try: m  except Exception as e: handler e]. *)
Definition try_except {A} (m : M A) (handler : PyExc -> M A) : M A :=
  fun w => match m w with
           | Ok a w' => Ok a w'
           | Raise e w' => handler e w'
           end.

Definition get_world : M World := fun w => Ok w w.

Definition modify (f : World -> World) : M unit := fun w => Ok tt (f w).

Declare Scope py_scope.
Delimit Scope py_scope with py.
Notation "x <- m ;; k" := (bind m (fun x => k))
  (at level 100, m at next level, right associativity) : py_scope.
Notation "m ;; k" := (bind m (fun _ => k))
  (at level 100, right associativity) : py_scope.
Local Open Scope py_scope.

(** The world an outcome leaves, and the exception when there is one. *)
Definition world_of {A} (o : outcome A) : World :=
  match o with Ok _ w => w | Raise _ w => w end.

Definition raised {A} (o : outcome A) : option PyExc :=
  match o with Ok _ _ => None | Raise e _ => Some e end.

(** Lift a collaborator's result. *)
Definition of_called {A} (c : called A) : M A :=
  match c with Returned a => ret a | Raised e => raise e end.

(** *** Streamlit, [print], files, [uuid4] *)

Definition st (call text : string) : M unit := modify (log (St call text)).
Definition st_audio (data : bytes) : M unit := modify (log (StAudio data)).
Definition print (text : string) : M unit := modify (log (Print text)).

(** [os.path.exists(path)]. *)
Definition os_path_exists (path : string) : M bool :=
  fun w => Ok (bool_decide (is_Some (fs w !! path))) w.

(** [with open(path, "wb") as f: f.write(data)].  The directories the script
    writes to are made at start-up by [os.makedirs]; disk failures are not
    modelled, so the write puts [data] at [path]. *)
Definition write_file (path : string) (data : bytes) : M unit :=
  modify (fun w => log (Wrote path data) (set_fs <[path := data]> w)).

(** [uuid.uuid4()]: the next identifier of the world's entropy. *)
Definition uuid4 : M Uuid.UUID :=
  fun w => Ok (entropy w (drawn w)) (draw w).

(** ** numpy and scipy.io.wavfile *)

Module Np.

(** A value of dtype [int16]. *)
Definition is_int16 (z : Z) : Prop := -32768 <= z <= 32767.

Definition to_int16 (v : Z) : Z := if v <? 32768 then v else v - 65536.

(** The elements of a buffer read as little-endian [int16], two bytes each
    (the byte order of the hosts the script runs on). *)
Fixpoint int16_array (bs : bytes) : list Z :=
  match bs with
  | lo :: hi :: rest => to_int16 (Py.unpack_u16 lo hi) :: int16_array rest
  | _ => []
  end.

(** [np.frombuffer(buffer, np.int16)]: numpy refuses a buffer whose size is
    not a multiple of the element size. *)
Definition frombuffer_int16 (buffer : bytes) : M (list Z) :=
  if Nat.even (length buffer) then ret (int16_array buffer)
  else raise (mkExc "ValueError"
                "buffer size must be a multiple of element size").

(** [a.tobytes()] of an [int16] array, little-endian. *)
Definition tobytes_int16 (a : list Z) : bytes := flat_map Py.pack_u16 a.

(** [a.nbytes]. *)
Definition nbytes_int16 (a : list Z) : Z := 2 * Z.of_nat (length a).

End Np.

(** What [scipy.io.wavfile.write] does with data whose file does not fit
    the 32-bit size fields of a RIFF file depends on the release installed,
    and the script pins none: older releases raise [ValueError], newer ones
    write a file in the RF64 layout.  The interface gives, for a rate and an
    [int16] array of that size, the bytes of the file written or the
    exception raised. *)
Class Scipy := {
  wavfile_write_oversized : Z -> list Z -> called bytes
}.

Module Wavfile.

(** The header fields [scipy.io.wavfile.write] computes for a
    one-dimensional [int16] array. *)
Definition format_tag : Z := 1.          (* WAVE_FORMAT.PCM *)
Definition channels : Z := 1.            (* data.ndim == 1 *)
Definition bit_depth : Z := 16.          (* itemsize * 8 *)

Definition fmt_chunk_data (rate : Z) : bytes :=
  Py.pack_u16 format_tag ++ Py.pack_u16 channels ++ Py.pack_u32 rate
  ++ Py.pack_u32 (rate * (bit_depth / 8) * channels)
  ++ Py.pack_u16 (channels * (bit_depth / 8)) ++ Py.pack_u16 bit_depth.

(** [header_data] as it stands before the data chunk, with the RIFF size
    still zero. *)
Definition header_data (rate : Z) : bytes :=
  Py.b "RIFF" ++ [x00; x00; x00; x00] ++ Py.b "WAVE" ++ Py.b "fmt "
  ++ Py.pack_u32 (Z.of_nat (length (fmt_chunk_data rate)))
  ++ fmt_chunk_data rate.

(** The finished file: the RIFF size is patched to the file size minus 8
    after the data chunk has been written. *)
Definition file_bytes (rate : Z) (data : list Z) : bytes :=
  let body := Py.b "WAVE" ++ Py.b "fmt "
              ++ Py.pack_u32 (Z.of_nat (length (fmt_chunk_data rate)))
              ++ fmt_chunk_data rate
              ++ Py.b "data" ++ Py.pack_u32 (Np.nbytes_int16 data)
              ++ Np.tobytes_int16 data in
  Py.b "RIFF" ++ Py.pack_u32 (Z.of_nat (length body)) ++ body.

(** [scipy.io.wavfile.write(filename, rate, data)] for an [int16] array.
    The file is opened (and so emptied) first.  Data the 32-bit RIFF size
    can count is written in the layout above; for data beyond that the
    installed release decides, and when it raises the empty file stays. *)
Definition write `{Scipy} (filename : string) (rate : Z) (data : list Z)
    : M unit :=
  write_file filename [] ;;
  if (Z.of_nat (length (header_data rate)) - 4 - 4)
     + (4 + 4 + Np.nbytes_int16 data) >? 4294967295
  then match wavfile_write_oversized rate data with
       | Returned file => write_file filename file
       | Raised e => raise e
       end
  else write_file filename (file_bytes rate data).

(** Reading helpers: a tag that must come next, a little-endian field. *)
Definition expect (tag file : bytes) : option bytes :=
  if decide (take (length tag) file = tag)
  then Some (drop (length tag) file) else None.

Definition read_u16 (file : bytes) : option (Z * bytes) :=
  match file with
  | b0 :: b1 :: rest => Some (Py.unpack_u16 b0 b1, rest)
  | _ => None
  end.

Definition read_u32 (file : bytes) : option (Z * bytes) :=
  match file with
  | b0 :: b1 :: b2 :: b3 :: rest => Some (Py.unpack_u32 b0 b1 b2 b3, rest)
  | _ => None
  end.

(** [scipy.io.wavfile.read] on a file of the layout [write] produces: the
    RIFF and WAVE tags, a 16-byte PCM [fmt ] chunk of one 16-bit channel,
    one [data] chunk.  The reader takes chunks while its position is below
    the RIFF size plus 8, so the [data] chunk, which starts at byte 36, is
    read only when the RIFF size says the file goes on beyond it.  It
    returns the rate and the samples; [None] stands for a file of another
    layout and for a file the reader gives up on. *)
Definition read (file : bytes) : option (Z * list Z) :=
  file ← expect (Py.b "RIFF") file;
  riff ← read_u32 file;
  file ← expect (Py.b "WAVE") riff.2;
  file ← expect (Py.b "fmt ") file;
  fmt_size ← read_u32 file;
  tag ← read_u16 fmt_size.2;
  chans ← read_u16 tag.2;
  rate ← read_u32 chans.2;
  bytes_per_second ← read_u32 rate.2;
  block_align ← read_u16 bytes_per_second.2;
  depth ← read_u16 block_align.2;
  file ← expect (Py.b "data") depth.2;
  size ← read_u32 file;
  if decide (36 < riff.1 + 8
             /\ fmt_size.1 = 16 /\ tag.1 = format_tag /\ chans.1 = channels
             /\ depth.1 = bit_depth
             /\ block_align.1 = channels * (bit_depth / 8)
             /\ size.1 <= Z.of_nat (length size.2))
  then Some (rate.1, Np.int16_array (take (Z.to_nat size.1) size.2))
  else None.

End Wavfile.

(** ** huggingface_hub *)

Module Hub.

Definition RepositoryNotFoundError : PyExc :=
  mkExc "RepositoryNotFoundError" "404 Client Error: repository not found".

(** [create_repo(repo_id, repo_type, exist_ok, token)]: makes the empty
    repository when there is none; with [exist_ok] an existing one is left
    as it is.  Tokens are taken to be valid and the network to be up. *)
Definition create_repo (repo_id repo_type : string) (exist_ok : bool)
    (token : string) : M unit :=
  modify (log (CreateRepo repo_id repo_type exist_ok token)) ;;
  w <- get_world ;;
  match hub w !! (repo_type, repo_id) with
  | Some _ =>
      if exist_ok then ret tt
      else raise (mkExc "HfHubHTTPError" "409 Client Error: Conflict")
  | None => modify (set_hub <[(repo_type, repo_id) := fun _ => None]>)
  end.

(** The files of a repository after a folder upload: every local file
    [folder_path/rel] is put at [rel]; other remote files stay. *)
Definition mirror (folder_path : string) (local : gmap string bytes)
    (remote : repo_files) : repo_files :=
  fun rel =>
    if Py.startswith_sep rel then remote rel
    else match local !! (folder_path +:+ "/" +:+ rel) with
         | Some data => Some data
         | None => remote rel
         end.

(** [HfApi.upload_folder(folder_path, repo_id, repo_type, token)]. *)
Definition upload_folder (folder_path repo_id repo_type token : string)
    : M unit :=
  modify (log (UploadFolder folder_path repo_id repo_type token)) ;;
  w <- get_world ;;
  match hub w !! (repo_type, repo_id) with
  | Some remote =>
      modify (set_hub <[(repo_type, repo_id) := mirror folder_path (fs w) remote]>)
  | None => raise RepositoryNotFoundError
  end.

(** [HfApi.upload_file(path_or_fileobj, path_in_repo, repo_id, repo_type,
    token)] for a local path. *)
Definition upload_file (path_or_fileobj path_in_repo repo_id repo_type
    token : string) : M unit :=
  modify (log (UploadFile path_or_fileobj path_in_repo repo_id repo_type token)) ;;
  w <- get_world ;;
  match fs w !! path_or_fileobj with
  | None =>
      raise (mkExc "ValueError"
               "Provided path is not a file on the local file system")
  | Some data =>
      match hub w !! (repo_type, repo_id) with
      | Some remote =>
          modify (set_hub <[(repo_type, repo_id) :=
                    fun p => if String.eqb p path_in_repo then Some data
                             else remote p]>)
      | None => raise RepositoryNotFoundError
      end
  end.

End Hub.

(** ** The collaborators of the script *)

(** [st.secrets] and the location of the script. *)
Class Config := {
  BASE_DIR : string;        (* os.path.dirname(os.path.abspath(__file__)) *)
  HF_TOKEN : string;
  HF_REPO_ID : string
}.

(** pandas' CSV codec: [pd.read_csv] on the contents of a file and
    [df.to_csv(..., index=index)]. *)
Class Pandas := {
  read_csv : bytes -> called Pd.DataFrame;
  to_csv : Pd.DataFrame -> bool -> bytes
}.

(** The Whisper model: [model.transcribe(path)["text"]] given the local
    files, or the exception the call raises. *)
Class Whisper := {
  model_transcribe : string -> gmap string bytes -> called string
}.

(** What [st.file_uploader] hands to the script. *)
Record UploadedFile := mkUploadedFile {
  name : string;
  data : bytes            (* uploaded_file.read() *)
}.

(** ** [app.py] *)

Section App.
Context `{Config, Pandas, Whisper, Scipy}.

Definition UPLOADED_DIR : string := Py.os_path_join BASE_DIR ["audio"; "uploaded"].
Definition RECORDED_DIR : string := Py.os_path_join BASE_DIR ["audio"; "recorded"].
Definition DATA_DIR : string := Py.os_path_join BASE_DIR ["data"].
Definition METADATA_PATH : string := Py.os_path_join DATA_DIR ["metadata.csv"].

(** [pd.read_csv(path)] and [df.to_csv(path, index=index)] on the local
    files. *)
Definition pd_read_csv (path : string) : M Pd.DataFrame :=
  w <- get_world ;;
  match fs w !! path with
  | Some contents => of_called (read_csv contents)
  | None => raise (mkExc "FileNotFoundError" path)
  end.

Definition df_to_csv (df : Pd.DataFrame) (path : string) (index : bool)
    : M unit :=
  write_file path (to_csv df index).

Definition save_uploaded_file (uploaded_file : UploadedFile)
    : M (string * string * string) :=
  let ext := Py.lower (Py.last_item (Py.split "." (name uploaded_file))) in
  u <- uuid4 ;;
  let filename := Uuid.str u +:+ "." +:+ ext in
  let save_path := Py.os_path_join UPLOADED_DIR [filename] in
  write_file save_path (data uploaded_file) ;;
  ret (save_path, filename, "uploaded").

Definition save_recorded_audio (audio_bytes : bytes)
    : M (string * string * string) :=
  u <- uuid4 ;;
  let filename := Uuid.str u +:+ ".wav" in
  let save_path := Py.os_path_join RECORDED_DIR [filename] in
  audio_np <- Np.frombuffer_int16 audio_bytes ;;
  Wavfile.write save_path 44100 audio_np ;;
  ret (save_path, filename, "recorded").

(** [None] is Python's [None]. *)
Definition transcribe_audio (audio_path : string) : M (option string) :=
  try_except
    (w <- get_world ;;
     let result := model_transcribe audio_path (fs w) in
     modify (log (Transcribe audio_path result)) ;;
     text <- of_called result ;;
     ret (Some text))
    (fun e =>
       st "error" ("Transcription failed: " +:+ exc_msg e) ;;
       ret None).

Definition audio_ref (audio_type audio_filename : string) : string :=
  "audio/" +:+ audio_type +:+ "/" +:+ audio_filename.

Definition save_metadata (audio_type audio_filename transcription : string)
    : M unit :=
  let new_row := Pd.DataFrame_of_record
                   [("audio", audio_ref audio_type audio_filename);
                    ("text", transcription)] in
  found <- os_path_exists METADATA_PATH ;;
  df <- (if found : bool
         then df <- pd_read_csv METADATA_PATH ;;
              ret (Pd.concat df new_row)
         else ret new_row) ;;
  df_to_csv df METADATA_PATH false ;;
  print ("✅ Metadata saved: " +:+ METADATA_PATH).

Definition push_to_huggingface : M unit :=
  Hub.create_repo HF_REPO_ID "dataset" true HF_TOKEN ;;
  print "✅ Repo exists or created successfully" ;;
  let audio_folder_path := Py.os_path_join BASE_DIR ["audio"] in
  let metadata_path := METADATA_PATH in
  Hub.upload_folder audio_folder_path HF_REPO_ID "dataset" HF_TOKEN ;;
  Hub.upload_file metadata_path "metadata.csv" HF_REPO_ID "dataset" HF_TOKEN ;;
  print "✅ Upload complete".

(** The record tab; [audio_bytes] is what [audio_recorder(...)] returned.
    [if audio_bytes:] holds for a non-empty byte string, [if transcription:]
    for a non-empty string. *)
Definition record_tab (audio_bytes : option bytes) : M unit :=
  st "subheader" "🎤 Record your voice" ;;
  match audio_bytes with
  | Some ((_ :: _) as audio_bytes) =>
      st_audio audio_bytes ;;
      st "success" "✅ Audio recorded successfully!" ;;
      saved <- save_recorded_audio audio_bytes ;;
      let '(audio_path, filename, audio_type) := saved in
      transcription <- transcribe_audio audio_path ;;
      match transcription with
      | Some (String _ _ as transcription) =>
          st "markdown" "### 📝 Transcription" ;;
          st "write" transcription ;;
          save_metadata audio_type filename transcription ;;
          push_to_huggingface ;;
          st "success" "✅ Recorded audio saved & uploaded!"
      | _ => ret tt
      end
  | _ =>
      st "info" "🎤 Click the button above to record your voice. Allow microphone access in your browser."
  end.

(** The upload tab; [uploaded_file] is what [st.file_uploader(...)]
    returned ([if uploaded_file:] holds for every file object). *)
Definition upload_tab (uploaded_file : option UploadedFile) : M unit :=
  st "subheader" "📂 Upload audio file" ;;
  match uploaded_file with
  | Some uploaded_file =>
      saved <- save_uploaded_file uploaded_file ;;
      let '(audio_path, filename, audio_type) := saved in
      st "audio" audio_path ;;
      transcription <- transcribe_audio audio_path ;;
      match transcription with
      | Some (String _ _ as transcription) =>
          st "markdown" "### 📝 Transcription" ;;
          st "write" transcription ;;
          save_metadata audio_type filename transcription ;;
          push_to_huggingface ;;
          st "success" "✅ Uploaded audio saved & uploaded!"
      | _ => ret tt
      end
  | None => ret tt
  end.

(** The steps both tabs run once the sample is persisted (lines 140-151 and
    170-181), up to the closing message [done]; [saved] is what the persist
    function returned.  The tabs above spell them out as the script does;
    [record_tab] and [upload_tab] are this, after their own beginnings. *)
Definition orchestrate (done : string) (saved : string * string * string)
    : M unit :=
  let '(audio_path, filename, audio_type) := saved in
  transcription <- transcribe_audio audio_path ;;
  match transcription with
  | Some (String _ _ as transcription) =>
      st "markdown" "### 📝 Transcription" ;;
      st "write" transcription ;;
      save_metadata audio_type filename transcription ;;
      push_to_huggingface ;;
      st "success" done
  | _ => ret tt
  end.

(** What the user submitted in one run, and the tab that handles it. *)
Inductive submission : Type :=
| Recording (audio_bytes : option bytes)
| Upload (uploaded_file : option UploadedFile).

Definition run_tab (s : submission) : M unit :=
  match s with
  | Recording audio_bytes => record_tab audio_bytes
  | Upload uploaded_file => upload_tab uploaded_file
  end.

Definition display_metadata : M unit :=
  found <- os_path_exists METADATA_PATH ;;
  if found : bool
  then st "subheader" "📄 Current Dataset Metadata" ;;
       df <- pd_read_csv METADATA_PATH ;;
       modify (log (StDataframe df))
  else ret tt.

(** One run of the script on what the two widgets returned. *)
Definition app_py (audio_bytes : option bytes)
    (uploaded_file : option UploadedFile) : M unit :=
  st "title" "🎙️ Voice Dataset Collector" ;;
  st "write" "Record or upload voice → Transcribe → Save to Hugging Face" ;;
  record_tab audio_bytes ;;
  upload_tab uploaded_file ;;
  display_metadata.

End App.

(** ** Observations on worlds and traces *)

Definition is_hub_call (e : event) : bool :=
  match e with
  | CreateRepo _ _ _ _ | UploadFolder _ _ _ _ | UploadFile _ _ _ _ _ => true
  | _ => false
  end.

Definition is_create_repo (e : event) : bool :=
  match e with CreateRepo _ _ _ _ => true | _ => false end.

(** How often [push_to_huggingface] was entered: each entry makes exactly
    one [create_repo] call, its first statement. *)
Definition publish_count (events : list event) : nat :=
  length (List.filter is_create_repo events).

(** The events of the steps after persisting: the call of the model, a
    write of the ledger at [ledger], a call to the hub. *)
Definition is_pipeline_event (ledger : string) (e : event) : bool :=
  match e with
  | Transcribe _ _ => true
  | Wrote path _ => String.eqb path ledger
  | _ => is_hub_call e
  end.

(** The calls to the hub among some events, in order. *)
Definition hub_calls (events : list event) : list event :=
  List.filter is_hub_call events.

(** The events logged since a trace of the given length. *)
Definition events_since (w w' : World) : list event :=
  drop (length (trace w)) (trace w').

(** A world that differs from [w] in its trace only. *)
Definition with_trace (w : World) (t : list event) : World :=
  {| fs := fs w; hub := hub w; trace := t;
     entropy := entropy w; drawn := drawn w |}.

(** ** A concrete pandas for examples: CSV without quoting

    The fragment of [read_csv]/[to_csv] on files whose fields hold no comma,
    quote or line break and whose header labels are distinct: a field among
    pandas' default missing-value markers is read as missing, a missing
    value is written as the empty field.  Files outside the fragment are
    reported as a parse error. *)

Module SimpleCsv.

Definition newline : ascii := "010".
Definition quote : ascii := "034".

Definition na_values : list string :=
  [EmptyString; "#N/A"; "#N/A N/A"; "#NA"; "-1.#IND"; "-1.#QNAN"; "-NaN";
   "-nan"; "1.#IND"; "1.#QNAN"; "<NA>"; "N/A"; "NA"; "NULL"; "NaN"; "None";
   "n/a"; "nan"; "null"].

Definition line (fields : list string) : string :=
  String.concat "," fields +:+ String newline EmptyString.

Definition render_row (index : bool) (cols : list string) (i : nat)
    (r : gmap string string) : string :=
  line ((if index then [pretty i] else [])
        ++ map (fun c => default EmptyString (r !! c)) cols).

Definition render (df : Pd.DataFrame) (index : bool) : string :=
  line ((if index then [EmptyString] else []) ++ Pd.columns df)
  +:+ String.concat EmptyString
        (imap (render_row index (Pd.columns df)) (Pd.rows df)).

Definition parse_row (header fields : list string) : gmap string string :=
  list_to_map (filter (fun kv => kv.2 ∉ na_values) (zip header fields)).

Definition parse (s : string) : called Pd.DataFrame :=
  match filter (fun l => l ≠ EmptyString) (Py.split newline s) with
  | [] => Raised (mkExc "EmptyDataError" "No columns to parse from file")
  | h :: ls =>
      let header := Py.split "," h in
      if decide (NoDup header
                 /\ Forall (fun l => (length (Py.split "," l) <= length header)%nat) ls
                 /\ Py.sep_free quote s = true)
      then Returned {| Pd.columns := header;
                       Pd.rows := map (fun l => parse_row header (Py.split "," l)) ls |}
      else Raised (mkExc "ParserError" "Error tokenizing data")
  end.

Definition pandas : Pandas := {|
  read_csv contents := parse (String.string_of_list_byte contents);
  to_csv df index := String.list_byte_of_string (render df index)
|}.

End SimpleCsv.

(** ** A concrete deployment for examples *)

Module Demo.

Definition config : Config := {|
  BASE_DIR := "/app";
  HF_TOKEN := "hf_token";
  HF_REPO_ID := "user/voice-dataset"
|}.

(** A model that hears "hello" in every file it is given and fails on a
    missing one. *)
Definition whisper_hello : Whisper := {|
  model_transcribe path files :=
    match files !! path with
    | Some _ => Returned " hello"
    | None => Raised (mkExc "RuntimeError" "Failed to load audio")
    end
|}.

(** A model that hears nothing: the transcript is the empty string. *)
Definition whisper_silent : Whisper := {|
  model_transcribe _ _ := Returned EmptyString
|}.

(** A model whose call always raises. *)
Definition whisper_broken : Whisper := {|
  model_transcribe _ _ := Raised (mkExc "RuntimeError" "CUDA out of memory")
|}.

(** A release of scipy that refuses data beyond the 32-bit sizes. *)
Definition scipy : Scipy := {|
  wavfile_write_oversized _ _ :=
    Raised (mkExc "ValueError" "Data exceeds wave file size limit")
|}.

Definition uuid_a : Uuid.UUID :=
  Uuid.mkUUID [x12; x3e; x45; x67; xe8; x9b; x42; xd3;
               xa4; x56; x42; x66; x14; x17; x40; x00] eq_refl.

Definition uuid_b : Uuid.UUID :=
  Uuid.mkUUID [x9f; x1c; x2d; x3e; x4f; x50; x41; x62;
               xb7; x73; x84; x95; xa6; xb7; xc8; xd9] eq_refl.

(** A fresh deployment: no local file, no remote repository, nothing
    logged; [uuid4] returns [uuid_a] first and [uuid_b] afterwards. *)
Definition fresh : World := {|
  fs := ∅; hub := ∅; trace := [];
  entropy := fun n => match n with O => uuid_a | _ => uuid_b end;
  drawn := 0
|}.

(** The upload [clip.MP3] of three bytes. *)
Definition clip : UploadedFile := mkUploadedFile "clip.MP3" [x49; x44; x33].

(** The five samples of the recording round trip, as recorded bytes. *)
Definition samples : list Z := [0; 1000; -1000; 32767; -32768].
Definition recording : bytes := Np.tobytes_int16 samples.

(** A ledger somebody extended by a third column. *)
Definition ledger3 : bytes :=
  String.list_byte_of_string
    (SimpleCsv.line ["audio"; "text"; "speaker"]
     +:+ SimpleCsv.line ["audio/uploaded/a.wav"; " hi"; "ann"]).

Definition fresh_with_ledger3 : World :=
  set_fs <[@METADATA_PATH config := ledger3]> fresh.

End Demo.

(* ===================================================================== *)
(** * Part II: facts about the library models *)
(* ===================================================================== *)

(** ** Tactics *)

(** Unfold the operations of the monad down to functions on worlds. *)
Ltac run :=
  cbv [bind ret raise modify get_world try_except of_called st st_audio print
       os_path_exists write_file uuid4].

(** A world that is not an update of another world. *)
Ltac plain_world w :=
  lazymatch w with
  | log _ _ => fail
  | set_fs _ _ => fail
  | set_hub _ _ => fail
  | draw _ => fail
  | _ => idtac
  end.

(** One update of a world that is not itself an update, written out as a
    record; the innermost updates go first, so that no term is copied into
    the five fields more than once. *)
Ltac world_step :=
  match goal with
  | |- context [log ?e ?w] =>
      plain_world w;
      change (log e w)
        with {| fs := fs w; hub := hub w; trace := trace w ++ [e];
                entropy := entropy w; drawn := drawn w |}
  | |- context [set_fs ?f ?w] =>
      plain_world w;
      change (set_fs f w)
        with {| fs := f (fs w); hub := hub w; trace := trace w;
                entropy := entropy w; drawn := drawn w |}
  | |- context [set_hub ?f ?w] =>
      plain_world w;
      change (set_hub f w)
        with {| fs := fs w; hub := f (hub w); trace := trace w;
                entropy := entropy w; drawn := drawn w |}
  | |- context [draw ?w] =>
      plain_world w;
      change (draw w)
        with {| fs := fs w; hub := hub w; trace := trace w;
                entropy := entropy w; drawn := S (drawn w) |}
  end; cbn [fs hub trace entropy drawn].

(** Bring the world an outcome leaves into the form of a record whose
    trace is the old trace followed by the list of new events. *)
Ltac world_norm :=
  cbn [world_of raised]; repeat world_step;
  cbn [fs hub trace entropy drawn];
  rewrite <- ?(assoc_L (++)); cbn [List.app].

(** Split a membership in an explicit list of events into its cases and
    drop those that equate different events. *)
Ltac elem_cases Hin :=
  cbn [List.app] in Hin;
  repeat (apply elem_of_cons in Hin as [Hin|Hin]; [try discriminate Hin|]);
  try (by apply elem_of_nil in Hin).

(** ** Strings *)

Section StringFacts.
Implicit Types (s t u : string) (c sep : ascii).

Lemma sapp_nil_l s : EmptyString +:+ s = s.
Proof. reflexivity. Qed.

Lemma sapp_cons c s t : String c s +:+ t = String c (s +:+ t).
Proof. reflexivity. Qed.

Lemma sapp_nil_r s : s +:+ EmptyString = s.
Proof. induction s as [|c s IH]; [done|]. by rewrite sapp_cons, IH. Qed.

Lemma sapp_assoc s t u : (s +:+ t) +:+ u = s +:+ t +:+ u.
Proof. induction s as [|c s IH]; [done|]. by rewrite !sapp_cons, IH. Qed.

Lemma sapp_length s t :
  String.length (s +:+ t) = (String.length s + String.length t)%nat.
Proof. induction s as [|c s IH]; [done|]. rewrite sapp_cons. simpl. by rewrite IH. Qed.

Lemma sapp_inj_l s t u : s +:+ t = s +:+ u -> t = u.
Proof. apply (inj (String.app s)). Qed.

(** Two strings with equal suffixes of equal length have equal stems. *)
Lemma sapp_inj_both s s' t t' :
  String.length t = String.length t' -> s +:+ t = s' +:+ t' -> s = s' /\ t = t'.
Proof.
  revert s'. induction s as [|c s IH]; intros [|c' s'] Hlen Heq.
  - by rewrite !sapp_nil_l in Heq.
  - rewrite sapp_nil_l in Heq. apply (f_equal String.length) in Heq.
    rewrite sapp_length in Heq. simpl in Heq. lia.
  - rewrite sapp_nil_l in Heq. apply (f_equal String.length) in Heq.
    rewrite sapp_length in Heq. simpl in Heq. lia.
  - rewrite !sapp_cons in Heq. injection Heq as -> Heq.
    destruct (IH s' Hlen Heq) as [-> ->]. done.
Qed.

Lemma sapp_inj_r s s' t : s +:+ t = s' +:+ t -> s = s'.
Proof. intros Heq. by destruct (sapp_inj_both s s' t t eq_refl Heq). Qed.

Lemma ascii_eqb_true c c' : Ascii.eqb c c' = true <-> c = c'.
Proof. apply Ascii.eqb_eq. Qed.

(** *** [split] and the part after the last separator *)

Lemma split_nonempty sep s : Py.split sep s <> [].
Proof.
  destruct s as [|c s]; simpl; [done|].
  destruct (Ascii.eqb c sep); [done|]. by destruct (Py.split sep s).
Qed.

Lemma split_sep_free sep s : Py.sep_free sep s = true -> Py.split sep s = [s].
Proof.
  induction s as [|c s IH]; simpl; [done|].
  intros [Hc Hs]%andb_prop. apply negb_true_iff in Hc. rewrite Hc.
  by rewrite (IH Hs).
Qed.

Lemma split_not_sep_free sep s :
  Py.sep_free sep s = false -> exists h x rest, Py.split sep s = h :: x :: rest.
Proof.
  induction s as [|c s IH]; simpl; [done|].
  destruct (Ascii.eqb c sep) eqn:Hc; simpl.
  - intros _. destruct (Py.split sep s) as [|x rest] eqn:Hs.
    + by apply split_nonempty in Hs.
    + by exists EmptyString, x, rest.
  - intros Hs. destruct (IH Hs) as (h & x & rest & ->). by exists (String c h), x, rest.
Qed.

(** The code's [name.split(sep)[-1]] is the part after the last separator. *)
Lemma last_split_after_last sep s :
  Py.last_item (Py.split sep s) = Py.after_last sep s.
Proof.
  unfold Py.last_item. induction s as [|c s IH]; [done|].
  cbn [Py.split Py.after_last].
  destruct (Py.sep_free sep s) eqn:Hfree.
  - rewrite (split_sep_free _ _ Hfree). by destruct (Ascii.eqb c sep).
  - destruct (split_not_sep_free _ _ Hfree) as (h & x & rest & Hs).
    rewrite Hs in IH |- *. rewrite <- IH. by destruct (Ascii.eqb c sep).
Qed.

Lemma after_last_sep_free sep s : Py.sep_free sep (Py.after_last sep s) = true.
Proof.
  induction s as [|c s IH]; [done|]. cbn [Py.after_last].
  destruct (Py.sep_free sep s) eqn:Hfree; [|done].
  destruct (Ascii.eqb c sep) eqn:Hc; [done|]. simpl. by rewrite Hc, Hfree.
Qed.

(** A name [base.ext] whose [ext] holds no separator has [ext] after the
    last one, whatever [base] is. *)
Lemma after_last_app sep base ext :
  Py.sep_free sep ext = true ->
  Py.after_last sep (base +:+ String sep ext) = ext.
Proof.
  intros Hext. induction base as [|c base IH].
  - rewrite sapp_nil_l. cbn [Py.after_last]. by rewrite Hext, Ascii.eqb_refl.
  - rewrite sapp_cons. cbn [Py.after_last]. rewrite IH.
    assert (Py.sep_free sep (base +:+ String sep ext) = false) as ->; [|done].
    clear IH. induction base as [|c' base IH].
    + rewrite sapp_nil_l. simpl. by rewrite Ascii.eqb_refl.
    + rewrite sapp_cons. cbn [Py.sep_free]. rewrite IH. by rewrite andb_false_r.
Qed.

Lemma sep_free_app sep s t :
  Py.sep_free sep (s +:+ t) = Py.sep_free sep s && Py.sep_free sep t.
Proof.
  induction s as [|c s IH]; [done|]. rewrite sapp_cons. simpl.
  by rewrite IH, andb_assoc.
Qed.

(** *** [lower] *)

Lemma lower_char_eqb_dot c : Ascii.eqb (Py.lower_char c) "." = Ascii.eqb c ".".
Proof. by destruct c as [[] [] [] [] [] [] [] []]. Qed.

Lemma lower_dot_free s : Py.sep_free "." (Py.lower s) = Py.sep_free "." s.
Proof.
  induction s as [|c s IH]; [done|]. simpl. by rewrite lower_char_eqb_dot, IH.
Qed.

Lemma lower_length s : String.length (Py.lower s) = String.length s.
Proof. induction s as [|c s IH]; [done|]. simpl. by rewrite IH. Qed.

End StringFacts.

(** ** Identifiers *)

Section UuidFacts.

Lemma hex_digit_code (n : N) :
  (n < 16)%N ->
  N_of_ascii (Uuid.hex_digit n) = if (n <? 10)%N then (48 + n)%N else (87 + n)%N.
Proof.
  intros Hn. unfold Uuid.hex_digit.
  destruct (n <? 10)%N; apply N_ascii_embedding; lia.
Qed.

Lemma hex_digit_inj (n m : N) :
  (n < 16)%N -> (m < 16)%N -> Uuid.hex_digit n = Uuid.hex_digit m -> n = m.
Proof.
  intros Hn Hm Heq. apply (f_equal N_of_ascii) in Heq.
  rewrite !hex_digit_code in Heq by done.
  destruct (N.ltb_spec n 10), (N.ltb_spec m 10); lia.
Qed.

Lemma to_N_lt_256 (x : byte) : (Byte.to_N x < 256)%N.
Proof. pose proof (Byte.to_N_bounded x). lia. Qed.

Lemma to_N_inj (x y : byte) : Byte.to_N x = Byte.to_N y -> x = y.
Proof.
  intros Heq. pose proof (Byte.of_to_N x) as Hx.
  rewrite Heq, Byte.of_to_N in Hx. by injection Hx.
Qed.

Lemma hex_byte_inj (x y : byte) : Uuid.hex_byte x = Uuid.hex_byte y -> x = y.
Proof.
  unfold Uuid.hex_byte. intros Heq. injection Heq as Hhi Hlo.
  pose proof (to_N_lt_256 x). pose proof (to_N_lt_256 y).
  apply hex_digit_inj in Hhi; [|apply N.Div0.div_lt_upper_bound; lia..].
  apply hex_digit_inj in Hlo; [|apply N.mod_lt; lia..].
  apply to_N_inj.
  rewrite (N.div_mod' (Byte.to_N x) 16), (N.div_mod' (Byte.to_N y) 16). lia.
Qed.

(** A hex digit is neither a dot nor a path separator. *)
Lemma hex_digit_plain (n : N) :
  (n < 16)%N ->
  Ascii.eqb (Uuid.hex_digit n) "." = false
  /\ Ascii.eqb (Uuid.hex_digit n) "/" = false.
Proof.
  intros Hn.
  assert (forall c, N_of_ascii (Uuid.hex_digit n) <> N_of_ascii c ->
                    Ascii.eqb (Uuid.hex_digit n) c = false) as Hne.
  { intros c Hc. apply Ascii.eqb_neq. congruence. }
  rewrite hex_digit_code in Hne by done.
  split; apply Hne; simpl; destruct (N.ltb_spec n 10); lia.
Qed.

Lemma hex_byte_plain (x : byte) s :
  Py.startswith_sep (Uuid.hex_byte x +:+ s) = false
  /\ Py.sep_free "." (Uuid.hex_byte x +:+ s) = Py.sep_free "." s.
Proof.
  pose proof (to_N_lt_256 x). unfold Uuid.hex_byte. rewrite !sapp_cons, sapp_nil_l.
  destruct (hex_digit_plain (Byte.to_N x / 16)) as [Hd1 Hs1];
    [apply N.Div0.div_lt_upper_bound; lia|].
  destruct (hex_digit_plain (Byte.to_N x mod 16)) as [Hd2 Hs2];
    [apply N.mod_lt; lia|].
  cbn [Py.startswith_sep Py.sep_free]. by rewrite Hs1, Hd1, Hd2.
Qed.

(** The sixteen bytes of an identifier, spelled out. *)
Lemma uuid_bytes_16 (u : Uuid.UUID) :
  exists b0 b1 b2 b3 b4 b5 b6 b7 b8 b9 b10 b11 b12 b13 b14 b15,
    Uuid.uuid_bytes u =
    [b0; b1; b2; b3; b4; b5; b6; b7; b8; b9; b10; b11; b12; b13; b14; b15].
Proof.
  destruct u as [bs Hlen]. simpl.
  do 16 (destruct bs as [|? bs]; [discriminate Hlen|]).
  destruct bs; [|discriminate Hlen]. by repeat eexists.
Qed.

Lemma uuid_eq (u v : Uuid.UUID) : Uuid.uuid_bytes u = Uuid.uuid_bytes v -> u = v.
Proof.
  destruct u as [bs Hu], v as [bs' Hv]. simpl. intros ->.
  f_equal. apply proof_irrel.
Qed.

Lemma str_inj (u v : Uuid.UUID) : Uuid.str u = Uuid.str v -> u = v.
Proof.
  intros Heq. apply uuid_eq.
  destruct (uuid_bytes_16 u) as (a0&a1&a2&a3&a4&a5&a6&a7&a8&a9&a10&a11&a12&a13&a14&a15&Hu).
  destruct (uuid_bytes_16 v) as (c0&c1&c2&c3&c4&c5&c6&c7&c8&c9&c10&c11&c12&c13&c14&c15&Hv).
  unfold Uuid.str in Heq. rewrite Hu, Hv in Heq |- *.
  cbn [take drop Uuid.hex] in Heq. unfold Uuid.hex_byte in Heq.
  rewrite ?sapp_cons, ?sapp_nil_l in Heq.
  injection Heq; intros.
  repeat f_equal; apply hex_byte_inj; unfold Uuid.hex_byte; congruence.
Qed.

Lemma str_length (u : Uuid.UUID) : String.length (Uuid.str u) = 36%nat.
Proof.
  destruct (uuid_bytes_16 u) as (a0&a1&a2&a3&a4&a5&a6&a7&a8&a9&a10&a11&a12&a13&a14&a15&Hu).
  unfold Uuid.str. rewrite Hu. reflexivity.
Qed.

(** An identifier followed by anything does not start with a separator,
    and the identifier holds no dot. *)
Lemma str_relative (u : Uuid.UUID) s :
  Py.startswith_sep (Uuid.str u +:+ s) = false.
Proof.
  destruct (uuid_bytes_16 u) as (a0&a1&a2&a3&a4&a5&a6&a7&a8&a9&a10&a11&a12&a13&a14&a15&Hu).
  unfold Uuid.str. rewrite Hu. cbn [take drop Uuid.hex].
  rewrite !sapp_assoc. apply hex_byte_plain.
Qed.

Lemma str_dot_free (u : Uuid.UUID) : Py.sep_free "." (Uuid.str u) = true.
Proof.
  destruct (uuid_bytes_16 u) as (a0&a1&a2&a3&a4&a5&a6&a7&a8&a9&a10&a11&a12&a13&a14&a15&Hu).
  unfold Uuid.str. rewrite Hu. cbn [take drop Uuid.hex].
  rewrite !sapp_assoc, ?sapp_nil_l.
  repeat (rewrite (proj2 (hex_byte_plain _ _)) || rewrite sapp_cons, ?sapp_nil_l
          || cbn [Py.sep_free Ascii.eqb Bool.eqb negb andb]).
  reflexivity.
Qed.

End UuidFacts.

(** ** Paths *)

Section PathFacts.
Context `{Config}.

Lemma endswith_sep_app s c t :
  Py.endswith_sep (s +:+ String c t) = Py.endswith_sep (String c t).
Proof.
  induction s as [|a s IH]; [done|]. rewrite sapp_cons.
  cbn [Py.endswith_sep]. rewrite IH.
  destruct s; [by rewrite sapp_nil_l|by rewrite sapp_cons].
Qed.

Lemma eqb_app_nonempty s c t : String.eqb (s +:+ String c t) EmptyString = false.
Proof. apply String.eqb_neq. by destruct s. Qed.

(** After a path that ends in a component, [join] puts a separator. *)
Lemma joiner_after s c t :
  Py.endswith_sep (String c t) = false -> Py.joiner (s +:+ String c t) = "/".
Proof.
  intros Hend. unfold Py.joiner.
  by rewrite eqb_app_nonempty, endswith_sep_app, Hend.
Qed.

Lemma join2_relative path x :
  Py.startswith_sep x = false -> Py.join2 path x = path +:+ Py.joiner path +:+ x.
Proof. unfold Py.join2. by intros ->. Qed.

(** The directory of the script followed by what [join] puts after it. *)
Lemma joiner_after2 s s' c t :
  Py.endswith_sep (String c t) = false ->
  Py.joiner (s +:+ s' +:+ String c t) = "/".
Proof. intros Hend. rewrite <- sapp_assoc. by apply joiner_after. Qed.

Local Abbreviation root x := (BASE_DIR +:+ Py.joiner BASE_DIR +:+ x) (only parsing).

Lemma audio_folder_eq : Py.os_path_join BASE_DIR ["audio"] = root "audio".
Proof. reflexivity. Qed.

Lemma UPLOADED_DIR_eq : UPLOADED_DIR = root "audio/uploaded".
Proof.
  unfold UPLOADED_DIR, Py.os_path_join. cbn [fold_left].
  rewrite (join2_relative _ "audio"), (join2_relative _ "uploaded") by done.
  rewrite (joiner_after2 _ _ "a" "udio") by done.
  by rewrite !sapp_assoc.
Qed.

Lemma RECORDED_DIR_eq : RECORDED_DIR = root "audio/recorded".
Proof.
  unfold RECORDED_DIR, Py.os_path_join. cbn [fold_left].
  rewrite (join2_relative _ "audio"), (join2_relative _ "recorded") by done.
  rewrite (joiner_after2 _ _ "a" "udio") by done.
  by rewrite !sapp_assoc.
Qed.

Lemma METADATA_PATH_eq : METADATA_PATH = root "data/metadata.csv".
Proof.
  unfold METADATA_PATH, DATA_DIR, Py.os_path_join. cbn [fold_left].
  rewrite (join2_relative _ "data"), (join2_relative _ "metadata.csv") by done.
  rewrite (joiner_after2 _ _ "d" "ata") by done.
  by rewrite !sapp_assoc.
Qed.

Lemma uploaded_path_eq filename :
  Py.startswith_sep filename = false ->
  Py.os_path_join UPLOADED_DIR [filename] = root ("audio/uploaded/" +:+ filename).
Proof.
  intros Hrel. unfold Py.os_path_join. cbn [fold_left].
  rewrite (join2_relative _ _ Hrel), UPLOADED_DIR_eq.
  rewrite (joiner_after2 _ _ "a" "udio/uploaded") by done.
  by rewrite !sapp_assoc.
Qed.

Lemma recorded_path_eq filename :
  Py.startswith_sep filename = false ->
  Py.os_path_join RECORDED_DIR [filename] = root ("audio/recorded/" +:+ filename).
Proof.
  intros Hrel. unfold Py.os_path_join. cbn [fold_left].
  rewrite (join2_relative _ _ Hrel), RECORDED_DIR_eq.
  rewrite (joiner_after2 _ _ "a" "udio/recorded") by done.
  by rewrite !sapp_assoc.
Qed.

(** No audio file is the ledger. *)
Lemma uploaded_path_ne_metadata filename :
  Py.startswith_sep filename = false ->
  Py.os_path_join UPLOADED_DIR [filename] <> METADATA_PATH.
Proof.
  intros Hrel. rewrite (uploaded_path_eq _ Hrel), METADATA_PATH_eq.
  intros Heq. apply sapp_inj_l, sapp_inj_l in Heq. discriminate Heq.
Qed.

Lemma recorded_path_ne_metadata filename :
  Py.startswith_sep filename = false ->
  Py.os_path_join RECORDED_DIR [filename] <> METADATA_PATH.
Proof.
  intros Hrel. rewrite (recorded_path_eq _ Hrel), METADATA_PATH_eq.
  intros Heq. apply sapp_inj_l, sapp_inj_l in Heq. discriminate Heq.
Qed.

(** A path in the uploaded or the recorded directory determines the file
    name. *)
Lemma uploaded_path_inj f g :
  Py.startswith_sep f = false -> Py.startswith_sep g = false ->
  Py.os_path_join UPLOADED_DIR [f] = Py.os_path_join UPLOADED_DIR [g] -> f = g.
Proof.
  intros Hf Hg. rewrite (uploaded_path_eq _ Hf), (uploaded_path_eq _ Hg).
  intros Heq. by apply sapp_inj_l, sapp_inj_l, sapp_inj_l in Heq.
Qed.

Lemma recorded_path_inj f g :
  Py.startswith_sep f = false -> Py.startswith_sep g = false ->
  Py.os_path_join RECORDED_DIR [f] = Py.os_path_join RECORDED_DIR [g] -> f = g.
Proof.
  intros Hf Hg. rewrite (recorded_path_eq _ Hf), (recorded_path_eq _ Hg).
  intros Heq. by apply sapp_inj_l, sapp_inj_l, sapp_inj_l in Heq.
Qed.

End PathFacts.

(** ** Bytes, [int16] arrays and WAV files *)

Section ByteFacts.

Lemma Z_of_byte_range (x : byte) : 0 <= Py.Z_of_byte x < 256.
Proof. unfold Py.Z_of_byte. pose proof (Byte.to_N_bounded x). lia. Qed.

Lemma Z_of_byte_of_Z (z : Z) : Py.Z_of_byte (Py.byte_of_Z z) = z mod 256.
Proof.
  unfold Py.Z_of_byte, Py.byte_of_Z.
  pose proof (Z.mod_pos_bound z 256 eq_refl) as Hz.
  destruct (Byte.of_N (Z.to_N (z mod 256))) as [x|] eqn:Hx.
  - apply Byte.to_of_N in Hx. rewrite Hx. lia.
  - apply Byte.of_N_None_iff in Hx. lia.
Qed.

Lemma byte_of_Z_of_byte (x : byte) : Py.byte_of_Z (Py.Z_of_byte x) = x.
Proof.
  unfold Py.byte_of_Z. pose proof (Z_of_byte_range x) as Hx.
  rewrite Z.mod_small by done. unfold Py.Z_of_byte.
  by rewrite N2Z.id, Byte.of_to_N.
Qed.

Lemma unpack_pack_u16 (n : Z) :
  0 <= n < 65536 ->
  Py.unpack_u16 (Py.byte_of_Z n) (Py.byte_of_Z (n / 256)) = n.
Proof.
  intros Hn. unfold Py.unpack_u16. rewrite !Z_of_byte_of_Z.
  rewrite (Z.mod_small (n / 256)) by (split; [apply Z.div_pos|apply Z.div_lt_upper_bound]; lia).
  rewrite (Z.div_mod n 256) at 3 by lia. lia.
Qed.

Lemma unpack_pack_u32 (n : Z) :
  0 <= n < 4294967296 ->
  Py.unpack_u32 (Py.byte_of_Z n) (Py.byte_of_Z (n / 256))
    (Py.byte_of_Z (n / 65536)) (Py.byte_of_Z (n / 16777216)) = n.
Proof.
  intros Hn. unfold Py.unpack_u32. rewrite !Z_of_byte_of_Z.
  pose proof (Z.div_mod n 256 ltac:(lia)) as H0.
  pose proof (Z.div_mod (n / 256) 256 ltac:(lia)) as H1.
  pose proof (Z.div_mod (n / 65536) 256 ltac:(lia)) as H2.
  replace (n / 256 / 256) with (n / 65536) in H1
    by (rewrite Z.div_div by lia; reflexivity).
  replace (n / 65536 / 256) with (n / 16777216) in H2
    by (rewrite Z.div_div by lia; reflexivity).
  rewrite (Z.mod_small (n / 16777216))
    by (split; [apply Z.div_pos|apply Z.div_lt_upper_bound]; lia).
  lia.
Qed.

(** The two bytes of a sample read back as the sample. *)
Lemma int16_of_pack (z : Z) :
  Np.is_int16 z ->
  Np.to_int16 (Py.unpack_u16 (Py.byte_of_Z z) (Py.byte_of_Z (z / 256))) = z.
Proof.
  intros [Hlo Hhi]. unfold Np.to_int16, Py.unpack_u16. rewrite !Z_of_byte_of_Z.
  pose proof (Z.div_mod z 256 ltac:(lia)) as H0.
  pose proof (Z.mod_pos_bound z 256 eq_refl) as Hm.
  assert (-128 <= z / 256 < 128) as Hq by lia.
  destruct (Z.ltb_spec 0 (z / 256 + 1)) as [Hpos|Hneg].
  - rewrite (Z.mod_small (z / 256)) by lia.
    destruct (Z.ltb_spec (z mod 256 + 256 * (z / 256)) 32768); lia.
  - assert ((z / 256) mod 256 = z / 256 + 256) as ->.
    { symmetry. apply (Z.mod_unique _ _ (-1)); lia. }
    destruct (Z.ltb_spec (z mod 256 + 256 * (z / 256 + 256)) 32768); lia.
Qed.

Lemma int16_array_tobytes (a : list Z) :
  Forall Np.is_int16 a -> Np.int16_array (Np.tobytes_int16 a) = a.
Proof.
  induction 1 as [|z a Hz _ IH]; [done|].
  unfold Np.tobytes_int16 in *.
  change (flat_map Py.pack_u16 (z :: a))
    with (Py.byte_of_Z z :: Py.byte_of_Z (z / 256) :: flat_map Py.pack_u16 a).
  cbn [Np.int16_array]. by rewrite int16_of_pack, IH.
Qed.

Lemma tobytes_length (a : list Z) :
  length (Np.tobytes_int16 a) = (2 * length a)%nat.
Proof.
  induction a as [|z a IH]; [done|].
  unfold Np.tobytes_int16 in *.
  change (flat_map Py.pack_u16 (z :: a))
    with (Py.byte_of_Z z :: Py.byte_of_Z (z / 256) :: flat_map Py.pack_u16 a).
  cbn [length]. rewrite IH. lia.
Qed.

Lemma to_int16_range (lo hi : byte) : Np.is_int16 (Np.to_int16 (Py.unpack_u16 lo hi)).
Proof.
  unfold Np.is_int16, Np.to_int16, Py.unpack_u16.
  pose proof (Z_of_byte_range lo). pose proof (Z_of_byte_range hi).
  destruct (Z.ltb_spec (Py.Z_of_byte lo + 256 * Py.Z_of_byte hi) 32768); lia.
Qed.

(** Induction on a list two elements at a time. *)
Lemma pair_ind {A} (P : list A -> Prop) :
  P [] -> (forall x, P [x]) -> (forall x y l, P l -> P (x :: y :: l)) ->
  forall l, P l.
Proof.
  intros Hnil Hone Hstep l.
  assert (P l /\ forall x, P (x :: l)) as [? _]; [|done].
  induction l as [|y l [IH1 IH2]]; [by split|]. split; [apply IH2|].
  intros x. by apply Hstep.
Qed.

Lemma int16_array_range (bs : bytes) : Forall Np.is_int16 (Np.int16_array bs).
Proof.
  induction bs as [| |lo hi bs IH] using pair_ind; cbn [Np.int16_array]; [done..|].
  constructor; [apply to_int16_range|done].
Qed.

Lemma int16_array_length (bs : bytes) :
  length (Np.int16_array bs) = (length bs / 2)%nat.
Proof.
  induction bs as [| |lo hi bs IH] using pair_ind; cbn [Np.int16_array]; [done..|].
  cbn [length]. rewrite IH.
  change (S (S (length bs))) with (1 * 2 + length bs)%nat.
  rewrite Nat.div_add_l by done. lia.
Qed.

(** *** Reading back what [scipy.io.wavfile.write] wrote *)

Lemma expect_app (tag rest : bytes) : Wavfile.expect tag (tag ++ rest) = Some rest.
Proof.
  unfold Wavfile.expect.
  rewrite take_app_length, drop_app_length. by rewrite decide_True.
Qed.

Lemma read_u16_pack (n : Z) (rest : bytes) :
  0 <= n < 65536 -> Wavfile.read_u16 (Py.pack_u16 n ++ rest) = Some (n, rest).
Proof. intros Hn. cbn. by rewrite unpack_pack_u16. Qed.

Lemma read_u32_pack (n : Z) (rest : bytes) :
  0 <= n < 4294967296 -> Wavfile.read_u32 (Py.pack_u32 n ++ rest) = Some (n, rest).
Proof. intros Hn. cbn. by rewrite unpack_pack_u32. Qed.

Lemma fmt_chunk_data_length (rate : Z) : length (Wavfile.fmt_chunk_data rate) = 16%nat.
Proof. reflexivity. Qed.

Lemma header_data_length (rate : Z) : length (Wavfile.header_data rate) = 36%nat.
Proof. reflexivity. Qed.

(** The round trip of the container: a file written for a rate and samples
    that fit reads back as that rate and those samples. *)
Lemma read_file_bytes (rate : Z) (samples : list Z) :
  0 <= rate < 2147483648 ->
  Forall Np.is_int16 samples ->
  36 + Np.nbytes_int16 samples <= 4294967295 ->
  Wavfile.read (Wavfile.file_bytes rate samples) = Some (rate, samples).
Proof.
  intros Hrate Hsamples Hfits. unfold Wavfile.read, Wavfile.file_bytes.
  rewrite fmt_chunk_data_length. unfold Wavfile.fmt_chunk_data.
  unfold Np.nbytes_int16 in *.
  rewrite <- !(assoc_L (++)).
  rewrite expect_app. cbn [mbind option_bind].
  rewrite read_u32_pack.
  2:{ rewrite !length_app, tobytes_length. simpl length. lia. }
  cbn [mbind option_bind fst snd].
  rewrite expect_app. cbn [mbind option_bind].
  rewrite expect_app. cbn [mbind option_bind].
  rewrite read_u32_pack by (simpl; lia). cbn [mbind option_bind fst snd].
  rewrite read_u16_pack by (unfold Wavfile.format_tag; lia).
  cbn [mbind option_bind fst snd].
  rewrite read_u16_pack by (unfold Wavfile.channels; lia).
  cbn [mbind option_bind fst snd].
  rewrite read_u32_pack by lia. cbn [mbind option_bind fst snd].
  rewrite read_u32_pack
    by (unfold Wavfile.bit_depth, Wavfile.channels; change (16 / 8) with 2; lia).
  cbn [mbind option_bind fst snd].
  rewrite read_u16_pack by (by vm_compute).
  cbn [mbind option_bind fst snd].
  rewrite read_u16_pack by (unfold Wavfile.bit_depth; lia).
  cbn [mbind option_bind fst snd].
  rewrite expect_app. cbn [mbind option_bind].
  rewrite <- (app_nil_r (Np.tobytes_int16 samples)) at 1.
  rewrite read_u32_pack by lia. cbn [mbind option_bind fst snd].
  rewrite decide_True.
  2:{ rewrite app_nil_r, !length_app, tobytes_length. simpl length.
      repeat split; try reflexivity; lia. }
  rewrite app_nil_r, take_ge by (rewrite tobytes_length; lia).
  by rewrite int16_array_tobytes.
Qed.

End ByteFacts.

(** ** What each function of the script does *)

Section AppFacts.
Context `{Config, Pandas, Whisper, Scipy}.

(** The frame [save_metadata] builds for the new row. *)
Local Abbreviation new_row audio_type filename text :=
  (Pd.DataFrame_of_record
     [("audio", audio_ref audio_type filename); ("text", text)]) (only parsing).

Lemma save_uploaded_file_eq (f : UploadedFile) (w : World) :
  let filename := Uuid.str (entropy w (drawn w)) +:+ "."
                  +:+ Py.lower (Py.last_item (Py.split "." (name f))) in
  let path := Py.os_path_join UPLOADED_DIR [filename] in
  save_uploaded_file f w
  = Ok (path, filename, "uploaded")
       (log (Wrote path (data f)) (set_fs <[path := data f]> (draw w))).
Proof. reflexivity. Qed.

Lemma save_recorded_audio_eq (audio_bytes : bytes) (w : World) :
  let filename := Uuid.str (entropy w (drawn w)) +:+ ".wav" in
  let path := Py.os_path_join RECORDED_DIR [filename] in
  let audio_np := Np.int16_array audio_bytes in
  let opened := log (Wrote path []) (set_fs <[path := []]> (draw w)) in
  let written file :=
    Ok (path, filename, "recorded")
      (log (Wrote path file) (set_fs <[path := file]> opened)) in
  save_recorded_audio audio_bytes w
  = if Nat.even (length audio_bytes)
    then if 36 + Np.nbytes_int16 audio_np >? 4294967295
         then match wavfile_write_oversized 44100 audio_np with
              | Returned file => written file
              | Raised e => Raise e opened
              end
         else written (Wavfile.file_bytes 44100 audio_np)
    else Raise (mkExc "ValueError"
                  "buffer size must be a multiple of element size") (draw w).
Proof.
  cbv zeta. unfold save_recorded_audio, Np.frombuffer_int16, Wavfile.write. run.
  destruct (Nat.even (length audio_bytes)); [|done].
  rewrite header_data_length.
  change (Z.of_nat 36 - 4 - 4 + (4 + 4 + Np.nbytes_int16 (Np.int16_array audio_bytes)))
    with (28 + (8 + Np.nbytes_int16 (Np.int16_array audio_bytes))).
  replace (28 + (8 + Np.nbytes_int16 (Np.int16_array audio_bytes)))
    with (36 + Np.nbytes_int16 (Np.int16_array audio_bytes)) by lia.
  destruct (_ >? _); [|done].
  by destruct (wavfile_write_oversized 44100 (Np.int16_array audio_bytes)).
Qed.

Lemma transcribe_audio_eq (audio_path : string) (w : World) :
  let result := model_transcribe audio_path (fs w) in
  transcribe_audio audio_path w
  = match result with
    | Returned text => Ok (Some text) (log (Transcribe audio_path result) w)
    | Raised e =>
        Ok None (log (St "error" ("Transcription failed: " +:+ exc_msg e))
                   (log (Transcribe audio_path result) w))
    end.
Proof.
  cbv zeta. unfold transcribe_audio. run.
  by destruct (model_transcribe audio_path (fs w)).
Qed.

Lemma save_metadata_eq (audio_type filename text : string) (w : World) :
  let written df :=
    log (Print ("✅ Metadata saved: " +:+ METADATA_PATH))
      (log (Wrote METADATA_PATH (to_csv df false))
         (set_fs <[METADATA_PATH := to_csv df false]> w)) in
  save_metadata audio_type filename text w
  = match fs w !! METADATA_PATH with
    | None => Ok tt (written (new_row audio_type filename text))
    | Some contents =>
        match read_csv contents with
        | Returned df =>
            Ok tt (written (Pd.concat df (new_row audio_type filename text)))
        | Raised e => Raise e w
        end
    end.
Proof.
  cbv zeta. unfold save_metadata, pd_read_csv, df_to_csv. run.
  destruct (fs w !! METADATA_PATH) as [contents|] eqn:Hfile.
  - rewrite bool_decide_eq_true_2 by eauto. rewrite Hfile.
    by destruct (read_csv contents).
  - rewrite bool_decide_eq_false_2; [done|]. by intros [? ?].
Qed.

Lemma push_to_huggingface_eq (w : World) :
  let key := ("dataset", HF_REPO_ID) in
  let audio := Py.os_path_join BASE_DIR ["audio"] in
  let mirrored := Hub.mirror audio (fs w) (default (fun _ => None) (hub w !! key)) in
  let calls := [CreateRepo HF_REPO_ID "dataset" true HF_TOKEN;
                Print "✅ Repo exists or created successfully";
                UploadFolder audio HF_REPO_ID "dataset" HF_TOKEN;
                UploadFile METADATA_PATH "metadata.csv" HF_REPO_ID "dataset"
                  HF_TOKEN] in
  push_to_huggingface w
  = match fs w !! METADATA_PATH with
    | Some ledger =>
        Ok tt (mkWorld (fs w)
                 (<[key := fun p => if String.eqb p "metadata.csv"
                                    then Some ledger else mirrored p]> (hub w))
                 (trace w ++ calls ++ [Print "✅ Upload complete"])
                 (entropy w) (drawn w))
    | None =>
        Raise (mkExc "ValueError"
                 "Provided path is not a file on the local file system")
          (mkWorld (fs w) (<[key := mirrored]> (hub w)) (trace w ++ calls)
             (entropy w) (drawn w))
    end.
Proof.
  cbv zeta. unfold push_to_huggingface, Hub.create_repo, Hub.upload_folder,
    Hub.upload_file. run.
  unfold log, set_hub. cbn [hub fs trace entropy drawn].
  destruct (hub w !! ("dataset", HF_REPO_ID)) as [remote|] eqn:Hrepo;
    cbn [hub fs trace entropy drawn];
    rewrite ?Hrepo, ?lookup_insert_eq; cbn [hub fs trace entropy drawn];
    destruct (fs w !! METADATA_PATH) as [ledger|];
    cbn [hub fs trace entropy drawn];
    rewrite ?lookup_insert_eq; cbn [hub fs trace entropy drawn];
    rewrite ?insert_insert_eq, <- ?(assoc_L (++)); reflexivity.
Qed.

(** The world after a successful append and publish of [df], started in
    [w] with [fs w] the files the ledger was read from. *)
Local Abbreviation published done df w :=
  (let key := ("dataset", HF_REPO_ID) in
   let audio := Py.os_path_join BASE_DIR ["audio"] in
   let files := <[METADATA_PATH := to_csv df false]> (fs w) in
   let mirrored := Hub.mirror audio files (default (fun _ => None) (hub w !! key)) in
   mkWorld files
     (<[key := fun p => if String.eqb p "metadata.csv"
                        then Some (to_csv df false) else mirrored p]> (hub w))
     (trace w ++ [Wrote METADATA_PATH (to_csv df false);
                  Print ("✅ Metadata saved: " +:+ METADATA_PATH);
                  CreateRepo HF_REPO_ID "dataset" true HF_TOKEN;
                  Print "✅ Repo exists or created successfully";
                  UploadFolder audio HF_REPO_ID "dataset" HF_TOKEN;
                  UploadFile METADATA_PATH "metadata.csv" HF_REPO_ID "dataset"
                    HF_TOKEN;
                  Print "✅ Upload complete";
                  St "success" done])
     (entropy w) (drawn w)) (only parsing).

Lemma append_and_publish_eq (done audio_type filename text : string) (w : World) :
  (save_metadata audio_type filename text ;; push_to_huggingface ;;
   st "success" done) w
  = match fs w !! METADATA_PATH with
    | None => Ok tt (published done (new_row audio_type filename text) w)
    | Some contents =>
        match read_csv contents with
        | Returned df =>
            Ok tt (published done
                     (Pd.concat df (new_row audio_type filename text)) w)
        | Raised e => Raise e w
        end
    end.
Proof.
  unfold bind at 1. rewrite save_metadata_eq.
  assert (forall df,
    (push_to_huggingface ;; st "success" done)
      (log (Print ("✅ Metadata saved: " +:+ METADATA_PATH))
         (log (Wrote METADATA_PATH (to_csv df false))
            (set_fs <[METADATA_PATH := to_csv df false]> w)))
    = Ok tt (published done df w)) as Hpush.
  { intros df. unfold bind at 1. rewrite push_to_huggingface_eq.
    unfold log, set_fs at 1. cbn [fs]. rewrite lookup_insert_eq.
    unfold st, modify, log, set_fs. cbn [fs hub trace entropy drawn].
    rewrite <- !(assoc_L (++)). reflexivity. }
  destruct (fs w !! METADATA_PATH) as [contents|]; [|apply Hpush].
  destruct (read_csv contents); [apply Hpush|done].
Qed.

Lemma orchestrate_eq (done audio_path filename audio_type : string) (w : World) :
  let result := model_transcribe audio_path (fs w) in
  let w1 := log (Transcribe audio_path result) w in
  orchestrate done (audio_path, filename, audio_type) w
  = match result with
    | Raised e =>
        Ok tt (log (St "error" ("Transcription failed: " +:+ exc_msg e)) w1)
    | Returned EmptyString => Ok tt w1
    | Returned text =>
        (save_metadata audio_type filename text ;; push_to_huggingface ;;
         st "success" done)
          (log (St "write" text) (log (St "markdown" "### 📝 Transcription") w1))
    end.
Proof.
  cbv zeta. unfold orchestrate. unfold bind at 1. rewrite transcribe_audio_eq.
  by destruct (model_transcribe audio_path (fs w)) as [[|c text]|e].
Qed.

Lemma record_tab_eq (audio_bytes : option bytes) (w : World) :
  let w0 := log (St "subheader" "🎤 Record your voice") w in
  record_tab audio_bytes w
  = match audio_bytes with
    | Some ((_ :: _) as audio_bytes) =>
        (saved <- save_recorded_audio audio_bytes ;;
         orchestrate "✅ Recorded audio saved & uploaded!" saved)
          (log (St "success" "✅ Audio recorded successfully!")
             (log (StAudio audio_bytes) w0))
    | _ =>
        Ok tt (log (St "info"
                      "🎤 Click the button above to record your voice. Allow microphone access in your browser.")
                 w0)
    end.
Proof. by destruct audio_bytes as [[|x audio_bytes]|]. Qed.

Lemma upload_tab_eq (uploaded_file : option UploadedFile) (w : World) :
  let w0 := log (St "subheader" "📂 Upload audio file") w in
  upload_tab uploaded_file w
  = match uploaded_file with
    | Some uploaded_file =>
        (saved <- save_uploaded_file uploaded_file ;;
         st "audio" saved.1.1 ;;
         orchestrate "✅ Uploaded audio saved & uploaded!" saved) w0
    | None => Ok tt w0
    end.
Proof. by destruct uploaded_file. Qed.

End AppFacts.

(* ===================================================================== *)
(** * Part III: the runs of the two tabs *)
(* ===================================================================== *)

Section Runs.
Context `{Config, Pandas, Whisper, Scipy}.

Local Abbreviation new_row audio_type filename text :=
  (Pd.DataFrame_of_record
     [("audio", audio_ref audio_type filename); ("text", text)]) (only parsing).

Lemma events_since_app (w w' : World) (events : list event) :
  trace w' = trace w ++ events -> events_since w w' = events.
Proof. unfold events_since. intros ->. by rewrite drop_app_length. Qed.

(** The frame an append writes, given the files it starts from: the new row
    alone, or the loaded ledger followed by the new row. *)
Local Abbreviation appended files audio_type filename text df :=
  ((files !! METADATA_PATH = None /\ df = new_row audio_type filename text)
   \/ exists contents df0,
        files !! METADATA_PATH = Some contents
        /\ read_csv contents = Returned df0
        /\ df = Pd.concat df0 (new_row audio_type filename text))
  (only parsing).

(** The calls one publish makes. *)
Local Abbreviation publish_calls :=
  [CreateRepo HF_REPO_ID "dataset" true HF_TOKEN;
   Print "✅ Repo exists or created successfully";
   UploadFolder (Py.os_path_join BASE_DIR ["audio"]) HF_REPO_ID "dataset"
     HF_TOKEN;
   UploadFile METADATA_PATH "metadata.csv" HF_REPO_ID "dataset" HF_TOKEN;
   Print "✅ Upload complete"] (only parsing).

(** The four ways the steps after persisting can go: the model raised; it
    returned the empty string; the ledger could not be loaded; the row was
    appended and the dataset published. *)
Lemma orchestrate_run (done audio_path filename audio_type : string) (w : World) :
  let o := orchestrate done (audio_path, filename, audio_type) w in
  let w' := world_of o in
  (exists e,
      model_transcribe audio_path (fs w) = Raised e
      /\ o = Ok tt w' /\ fs w' = fs w /\ hub w' = hub w
      /\ trace w' = trace w ++
           [Transcribe audio_path (Raised e);
            St "error" ("Transcription failed: " +:+ exc_msg e)])
  \/ (model_transcribe audio_path (fs w) = Returned EmptyString
      /\ o = Ok tt w' /\ fs w' = fs w /\ hub w' = hub w
      /\ trace w' = trace w ++ [Transcribe audio_path (Returned EmptyString)])
  \/ (exists text contents e,
      model_transcribe audio_path (fs w) = Returned text /\ text <> EmptyString
      /\ fs w !! METADATA_PATH = Some contents /\ read_csv contents = Raised e
      /\ o = Raise e w' /\ fs w' = fs w /\ hub w' = hub w
      /\ trace w' = trace w ++
           [Transcribe audio_path (Returned text);
            St "markdown" "### 📝 Transcription"; St "write" text])
  \/ (exists text df,
      model_transcribe audio_path (fs w) = Returned text /\ text <> EmptyString
      /\ appended (fs w) audio_type filename text df
      /\ o = Ok tt w'
      /\ fs w' = <[METADATA_PATH := to_csv df false]> (fs w)
      /\ (exists remote,
            hub w' = <[("dataset", HF_REPO_ID) := remote]> (hub w)
            /\ remote "metadata.csv" = Some (to_csv df false))
      /\ trace w' = trace w ++
           [Transcribe audio_path (Returned text);
            St "markdown" "### 📝 Transcription"; St "write" text;
            Wrote METADATA_PATH (to_csv df false);
            Print ("✅ Metadata saved: " +:+ METADATA_PATH)]
           ++ publish_calls ++ [St "success" done]).
Proof.
  cbv zeta. rewrite orchestrate_eq. cbv zeta.
  destruct (model_transcribe audio_path (fs w)) as [[|c text]|e] eqn:Hmodel.
  - right; left. by world_norm.
  - right; right. rewrite append_and_publish_eq. world_norm.
    destruct (fs w !! METADATA_PATH) as [contents|] eqn:Hledger.
    + destruct (read_csv contents) as [df0|e] eqn:Hread.
      * right. eexists _, _. world_norm.
        repeat split; [done|right; by eexists _, _|].
        eexists. split; [done|]. cbv beta. by rewrite String.eqb_refl.
      * left. exists (String c text), contents, e. by world_norm.
    + right. eexists _, _. world_norm.
      repeat split; [done|by left|].
      eexists. split; [done|]. cbv beta. by rewrite String.eqb_refl.
  - left. exists e. by world_norm.
Qed.

(** Events before the model is called: none of them is an event of the
    steps after persisting. *)
Local Abbreviation quiet pre :=
  (List.filter (is_pipeline_event METADATA_PATH) pre = []) (only parsing).

Lemma eqb_ne (s t : string) : s <> t -> String.eqb s t = false.
Proof. apply String.eqb_neq. Qed.

(** A run of the record tab either ends before the model is called (no
    recording, or persisting raised) or goes on to the steps after
    persisting, in a world whose ledger and hub are those of the start. *)
Lemma record_tab_run (audio_bytes : option bytes) (w : World) :
  let o := record_tab audio_bytes w in
  (exists pre,
      trace (world_of o) = trace w ++ pre /\ quiet pre
      /\ fs (world_of o) !! METADATA_PATH = fs w !! METADATA_PATH
      /\ hub (world_of o) = hub w)
  \/ (exists recording audio_path filename w1 pre,
      audio_bytes = Some recording
      /\ save_recorded_audio recording
           (log (St "success" "✅ Audio recorded successfully!")
              (log (StAudio recording)
                 (log (St "subheader" "🎤 Record your voice") w)))
         = Ok (audio_path, filename, "recorded") w1
      /\ o = orchestrate "✅ Recorded audio saved & uploaded!"
                (audio_path, filename, "recorded") w1
      /\ trace w1 = trace w ++ pre /\ quiet pre
      /\ fs w1 !! METADATA_PATH = fs w !! METADATA_PATH
      /\ hub w1 = hub w).
Proof.
  cbv zeta. rewrite record_tab_eq. cbv zeta.
  destruct audio_bytes as [[|x recording]|];
    [left; eexists; by world_norm| |left; eexists; by world_norm].
  pose proof (recorded_path_ne_metadata
                (Uuid.str (entropy w (drawn w)) +:+ ".wav")
                (str_relative _ _)) as Hne.
  unfold bind. rewrite save_recorded_audio_eq. cbv zeta.
  destruct (Nat.even _) eqn:Heven;
    [destruct (_ >? _) eqn:Hsize;
       [destruct (wavfile_write_oversized _ _) as [file|e] eqn:Hlong|]|].
  - right. eexists (x :: recording), _, _, _, _. split; [done|].
    split; [rewrite save_recorded_audio_eq; cbv zeta;
            by rewrite Heven, Hsize, Hlong|].
    split; [done|]. world_norm.
    repeat split; [|by rewrite !lookup_insert_ne].
    cbn [List.filter is_pipeline_event is_hub_call]. by rewrite eqb_ne.
  - left. eexists. world_norm. repeat split; [|by rewrite lookup_insert_ne].
    cbn [List.filter is_pipeline_event is_hub_call]. by rewrite eqb_ne.
  - right. eexists (x :: recording), _, _, _, _. split; [done|].
    split; [rewrite save_recorded_audio_eq; cbv zeta; by rewrite Heven, Hsize|].
    split; [done|]. world_norm.
    repeat split; [|by rewrite !lookup_insert_ne].
    cbn [List.filter is_pipeline_event is_hub_call]. by rewrite eqb_ne.
  - left. eexists. by world_norm.
Qed.

Lemma upload_tab_run (uploaded_file : option UploadedFile) (w : World) :
  let o := upload_tab uploaded_file w in
  (exists pre,
      trace (world_of o) = trace w ++ pre /\ quiet pre
      /\ fs (world_of o) !! METADATA_PATH = fs w !! METADATA_PATH
      /\ hub (world_of o) = hub w)
  \/ (exists file audio_path filename w0 w1 pre,
      uploaded_file = Some file
      /\ save_uploaded_file file (log (St "subheader" "📂 Upload audio file") w)
         = Ok (audio_path, filename, "uploaded") w0
      /\ w1 = log (St "audio" audio_path) w0
      /\ o = orchestrate "✅ Uploaded audio saved & uploaded!"
                (audio_path, filename, "uploaded") w1
      /\ trace w1 = trace w ++ pre /\ quiet pre
      /\ fs w1 !! METADATA_PATH = fs w !! METADATA_PATH
      /\ hub w1 = hub w).
Proof.
  cbv zeta. rewrite upload_tab_eq. cbv zeta.
  destruct uploaded_file as [file|]; [|left; eexists; by world_norm].
  right. unfold bind at 1. rewrite save_uploaded_file_eq. cbv zeta.
  pose proof (uploaded_path_ne_metadata
                (Uuid.str (entropy w (drawn w)) +:+ "."
                 +:+ Py.lower (Py.last_item (Py.split "." (name file))))
                (str_relative _ _)) as Hne.
  eexists file, _, _, _, _, _. split; [done|].
  split; [exact (save_uploaded_file_eq _ _)|]. split; [done|].
  split; [reflexivity|]. world_norm.
  repeat split; [|by rewrite lookup_insert_ne].
  cbn [List.filter is_pipeline_event is_hub_call]. by rewrite eqb_ne.
Qed.

(** Every run of a tab, by how far it got: the model was never called; the
    call raised; it returned the empty string; the ledger could not be
    loaded; the row was appended and the dataset published.  [pre] are the
    events before the call of the model. *)
Lemma tab_run_cases (o : outcome unit) (w : World) :
  (exists audio_bytes, o = record_tab audio_bytes w)
  \/ (exists uploaded_file, o = upload_tab uploaded_file w) ->
  let w' := world_of o in
  exists pre, quiet pre /\
    ((trace w' = trace w ++ pre
      /\ fs w' !! METADATA_PATH = fs w !! METADATA_PATH /\ hub w' = hub w)
     \/ (exists p e,
           o = Ok tt w'
           /\ trace w' = trace w ++ pre ++
                [Transcribe p (Raised e);
                 St "error" ("Transcription failed: " +:+ exc_msg e)]
           /\ fs w' !! METADATA_PATH = fs w !! METADATA_PATH /\ hub w' = hub w)
     \/ (exists p,
           o = Ok tt w'
           /\ trace w' = trace w ++ pre ++ [Transcribe p (Returned EmptyString)]
           /\ fs w' !! METADATA_PATH = fs w !! METADATA_PATH /\ hub w' = hub w)
     \/ (exists p text contents e,
           text <> EmptyString
           /\ fs w !! METADATA_PATH = Some contents
           /\ read_csv contents = Raised e
           /\ o = Raise e w'
           /\ trace w' = trace w ++ pre ++
                [Transcribe p (Returned text);
                 St "markdown" "### 📝 Transcription"; St "write" text]
           /\ fs w' !! METADATA_PATH = fs w !! METADATA_PATH /\ hub w' = hub w)
     \/ (exists p filename audio_type done text df,
           text <> EmptyString
           /\ appended (fs w) audio_type filename text df
           /\ o = Ok tt w'
           /\ fs w' !! METADATA_PATH = Some (to_csv df false)
           /\ (exists remote,
                 hub w' = <[("dataset", HF_REPO_ID) := remote]> (hub w)
                 /\ remote "metadata.csv" = Some (to_csv df false))
           /\ trace w' = trace w ++ pre ++
                [Transcribe p (Returned text);
                 St "markdown" "### 📝 Transcription"; St "write" text;
                 Wrote METADATA_PATH (to_csv df false);
                 Print ("✅ Metadata saved: " +:+ METADATA_PATH)]
                ++ publish_calls ++ [St "success" done])).
Proof.
  intros Htab. cbv zeta.
  assert ((exists pre,
             trace (world_of o) = trace w ++ pre /\ quiet pre
             /\ fs (world_of o) !! METADATA_PATH = fs w !! METADATA_PATH
             /\ hub (world_of o) = hub w)
          \/ (exists done audio_path filename audio_type w1 pre,
                o = orchestrate done (audio_path, filename, audio_type) w1
                /\ trace w1 = trace w ++ pre /\ quiet pre
                /\ fs w1 !! METADATA_PATH = fs w !! METADATA_PATH
                /\ hub w1 = hub w)) as [Hquiet|Hreached].
  { destruct Htab as [[audio_bytes ->]|[uploaded_file ->]].
    - destruct (record_tab_run audio_bytes w)
        as [?|(? & ? & ? & w1 & pre & _ & _ & ? & ?)]; [by left|].
      right. by eexists _, _, _, _, w1, pre.
    - destruct (upload_tab_run uploaded_file w)
        as [?|(? & ? & ? & ? & w1 & pre & _ & _ & _ & ? & ?)]; [by left|].
      right. by eexists _, _, _, _, w1, pre. }
  - destruct Hquiet as (pre & Htrace & Hpre & Hfs & Hhub).
    exists pre. split; [done|]. by left.
  - destruct Hreached
      as (done & p & filename & audio_type & w1 & pre & -> & Htrace & Hpre & Hfs & Hhub).
    exists pre. split; [done|]. right.
    destruct (orchestrate_run done p filename audio_type w1)
      as [(e & _ & Ho & Hfs' & Hhub' & Htrace')
         |[(_ & Ho & Hfs' & Hhub' & Htrace')
          |[(text & contents & e & _ & Htext & Hledger & Hread & Ho & Hfs' & Hhub' & Htrace')
           |(text & df & _ & Htext & Happ & Ho & Hfs' & Hhub' & Htrace')]]].
    + left. exists p, e. rewrite Htrace', Htrace, Hfs', Hhub', <- (assoc_L (++)).
      by rewrite Ho at 1.
    + right; left. exists p. rewrite Htrace', Htrace, Hfs', Hhub', <- (assoc_L (++)).
      by rewrite Ho at 1.
    + right; right; left. exists p, text, contents, e.
      rewrite Htrace', Htrace, Hfs', Hhub', <- (assoc_L (++)), <- Hfs.
      by rewrite Ho at 1.
    + right; right; right. exists p, filename, audio_type, done, text, df.
      rewrite Htrace', Htrace, Hfs', <- (assoc_L (++)), lookup_insert_eq.
      rewrite <- Hhub, <- Hfs. by rewrite Ho at 1.
Qed.

End Runs.

(* ===================================================================== *)
(** * Part IV: the claims *)
(* ===================================================================== *)

Section Claims.
Context `{Config, Pandas, Whisper, Scipy}.

Local Abbreviation new_row audio_type filename text :=
  (Pd.DataFrame_of_record
     [("audio", audio_ref audio_type filename); ("text", text)]) (only parsing).

Local Abbreviation quiet pre :=
  (List.filter (is_pipeline_event METADATA_PATH) pre = []) (only parsing).

Lemma run_tab_cases (s : submission) (w : World) :
  (exists audio_bytes, run_tab s w = record_tab audio_bytes w)
  \/ (exists uploaded_file, run_tab s w = upload_tab uploaded_file w).
Proof. destruct s; [left|right]; by eexists. Qed.

(** Events before the call of the model hold nothing a filter of pipeline
    events keeps. *)
Lemma filter_quiet (keep : event -> bool) (pre : list event) :
  (forall e, keep e = true -> is_pipeline_event METADATA_PATH e = true) ->
  quiet pre -> List.filter keep pre = [].
Proof.
  intros Hkeep Hpre. induction pre as [|e pre IH]; [done|].
  cbn [List.filter] in *. destruct (keep e) eqn:He.
  - by rewrite (Hkeep e He) in Hpre.
  - apply IH. by destruct (is_pipeline_event METADATA_PATH e).
Qed.

Lemma quiet_hub_calls (pre : list event) : quiet pre -> hub_calls pre = [].
Proof. apply filter_quiet. by intros []. Qed.

Lemma quiet_publish_count (pre : list event) : quiet pre -> publish_count pre = 0%nat.
Proof.
  intros Hpre. unfold publish_count. rewrite (filter_quiet is_create_repo); [done| |done].
  by intros [].
Qed.

Lemma quiet_not_in (pre : list event) (e : event) :
  quiet pre -> is_pipeline_event METADATA_PATH e = true -> e ∉ pre.
Proof.
  intros Hpre He Hin. apply list_elem_of_In in Hin.
  assert (In e (List.filter (is_pipeline_event METADATA_PATH) pre)) as Hf
    by (by apply filter_In).
  by rewrite Hpre in Hf.
Qed.

Lemma hub_calls_app (l k : list event) : hub_calls (l ++ k) = hub_calls l ++ hub_calls k.
Proof. apply List.filter_app. Qed.

Lemma publish_count_app (l k : list event) :
  publish_count (l ++ k) = (publish_count l + publish_count k)%nat.
Proof. unfold publish_count. by rewrite List.filter_app, length_app. Qed.

(** C1.  When the call of the model raises, [transcribe_audio] catches the
    exception and returns [None] instead of raising, leaving files and hub
    as they were; and in every run of a tab in which the call of the model
    raised, the run ends normally, the ledger file is what it was before
    the submission (so it has as many rows as before), no call to the hub
    was made and the publish step was not entered. *)
Theorem transcription_failure_short_circuits :
  (forall audio_path w e,
      model_transcribe audio_path (fs w) = Raised e ->
      exists w', transcribe_audio audio_path w = Ok None w'
                 /\ fs w' = fs w /\ hub w' = hub w)
  /\ (forall s w,
        let o := run_tab s w in
        let events := events_since w (world_of o) in
        (exists p e, Transcribe p (Raised e) ∈ events) ->
        o = Ok tt (world_of o)
        /\ fs (world_of o) !! METADATA_PATH = fs w !! METADATA_PATH
        /\ (forall contents, Wrote METADATA_PATH contents ∉ events)
        /\ hub_calls events = []
        /\ publish_count events = 0%nat
        /\ hub (world_of o) = hub w).
Proof.
  split.
  - intros audio_path w e Hmodel. rewrite transcribe_audio_eq. cbv zeta.
    rewrite Hmodel. by eexists.
  - intros s w o events (p & e & Hin). subst events.
    destruct (tab_run_cases o w (run_tab_cases s w)) as (pre & Hpre & Hcases).
    assert (Transcribe p (Raised e) ∉ pre) as Hnotpre by (by apply quiet_not_in).
    destruct Hcases
      as [(Htrace & Hfs & Hhub)
         |[(p' & e' & Ho & Htrace & Hfs & Hhub)
          |[(p' & Ho & Htrace & Hfs & Hhub)
           |[(p' & text & contents & e' & _ & _ & _ & Ho & Htrace & Hfs & Hhub)
            |(p' & filename & audio_type & done & text & df & _ & _ & Ho & _ & _ & Htrace)]]]];
      apply events_since_app in Htrace; rewrite Htrace in Hin |- *.
    + done.
    + split; [done|]. split; [done|]. split.
      { intros contents [Hc|Hc]%elem_of_app; [|elem_cases Hc].
        by apply (quiet_not_in pre (Wrote METADATA_PATH contents) Hpre);
          [apply String.eqb_refl|]. }
      rewrite hub_calls_app, publish_count_app, quiet_hub_calls,
        quiet_publish_count by done. done.
    + apply elem_of_app in Hin as [Hin|Hin]; [done|]. elem_cases Hin.
    + apply elem_of_app in Hin as [Hin|Hin]; [done|]. elem_cases Hin.
    + apply elem_of_app in Hin as [Hin|Hin]; [done|]. elem_cases Hin.
Qed.

(** The row an append adds: the last row of the frame written, with the
    audio reference and the transcript. *)
Lemma appended_last_row (files : gmap string bytes)
    (audio_type filename text : string) (df : Pd.DataFrame) :
  (files !! METADATA_PATH = None /\ df = new_row audio_type filename text)
  \/ (exists contents df0,
        files !! METADATA_PATH = Some contents
        /\ read_csv contents = Returned df0
        /\ df = Pd.concat df0 (new_row audio_type filename text)) ->
  exists r, last (Pd.rows df) = Some r
            /\ r !! "audio" = Some (audio_ref audio_type filename)
            /\ r !! "text" = Some text.
Proof.
  intros [[_ ->]|(contents & df0 & _ & _ & ->)]; eexists; cbn [Pd.rows Pd.concat Pd.DataFrame_of_record];
    rewrite ?last_snoc; (split; [reflexivity|]); by split.
Qed.

(** C3 (as amended).  In every run of a tab: a row is written to the ledger
    only after the model returned a transcript that is not empty, and the
    text of the row written is that transcript, so it is present and not
    empty; and when the model returned a transcript that is not empty and
    the ledger, if there is one, can be loaded, the row is written. *)
Theorem row_written_iff_nonempty_transcript (s : submission) (w : World) :
  let o := run_tab s w in
  let events := events_since w (world_of o) in
  (forall contents,
      Wrote METADATA_PATH contents ∈ events ->
      exists p text df r,
        Transcribe p (Returned text) ∈ events /\ text <> EmptyString
        /\ contents = to_csv df false
        /\ last (Pd.rows df) = Some r /\ r !! "text" = Some text)
  /\ (forall p text,
        Transcribe p (Returned text) ∈ events -> text <> EmptyString ->
        (forall contents, fs w !! METADATA_PATH = Some contents ->
                          exists df0, read_csv contents = Returned df0) ->
        exists df r,
          Wrote METADATA_PATH (to_csv df false) ∈ events
          /\ fs (world_of o) !! METADATA_PATH = Some (to_csv df false)
          /\ last (Pd.rows df) = Some r /\ r !! "text" = Some text).
Proof.
  intros o events. subst events.
  destruct (tab_run_cases o w (run_tab_cases s w)) as (pre & Hpre & Hcases).
  assert (forall contents, Wrote METADATA_PATH contents ∉ pre) as Hnowrite.
  { intros contents. apply quiet_not_in; [done|apply String.eqb_refl]. }
  assert (forall p r, Transcribe p r ∉ pre) as Hnocall.
  { intros p r. by apply quiet_not_in. }
  destruct Hcases
    as [(Htrace & Hfs & Hhub)
       |[(p' & e' & Ho & Htrace & Hfs & Hhub)
        |[(p' & Ho & Htrace & Hfs & Hhub)
         |[(p' & text' & contents' & e' & _ & Hledger & Hread & Ho & Htrace & Hfs & Hhub)
          |(p' & filename & audio_type & done & text' & df & Htext & Happ & Ho & Hfs & _ & Htrace)]]]];
    apply events_since_app in Htrace; rewrite Htrace; split.
  - intros contents Hin. by apply Hnowrite in Hin.
  - intros p text Hin. by apply Hnocall in Hin.
  - intros contents [Hin|Hin]%elem_of_app; [by apply Hnowrite in Hin|elem_cases Hin].
  - intros p text [Hin|Hin]%elem_of_app; [by apply Hnocall in Hin|elem_cases Hin].
  - intros contents [Hin|Hin]%elem_of_app; [by apply Hnowrite in Hin|elem_cases Hin].
  - intros p text [Hin|Hin]%elem_of_app Htext; [by apply Hnocall in Hin|].
    elem_cases Hin. by injection Hin as _ ->.
  - intros contents [Hin|Hin]%elem_of_app; [by apply Hnowrite in Hin|elem_cases Hin].
  - intros p text [Hin|Hin]%elem_of_app Htext Hload; [by apply Hnocall in Hin|].
    elem_cases Hin. destruct (Hload _ Hledger) as [df0 Hdf0]. congruence.
  - intros contents [Hin|Hin]%elem_of_app; [by apply Hnowrite in Hin|].
    elem_cases Hin. injection Hin as ->.
    destruct (appended_last_row _ _ _ _ _ Happ) as (r & Hlast & _ & Hr).
    exists p', text', df, r. repeat split; try done.
    apply elem_of_app. right. apply list_elem_of_here.
  - intros p text [Hin|Hin]%elem_of_app Hne Hload; [by apply Hnocall in Hin|].
    elem_cases Hin. injection Hin as _ ->.
    destruct (appended_last_row _ _ _ _ _ Happ) as (r & Hlast & _ & Hr).
    exists df, r. repeat split; try done.
    apply elem_of_app. right. cbn [List.app].
    do 3 apply list_elem_of_further. apply list_elem_of_here.
Qed.

(** C7.  [push_to_huggingface] calls the hub three times, in this order:
    [create_repo] for the configured repository as a dataset with
    [exist_ok], [upload_folder] for the local audio directory,
    [upload_file] for the ledger to [metadata.csv].  [create_repo] makes the
    empty repository when there is none and changes nothing when there is
    one.  With a ledger on disk the publish ends normally, the repository
    exists, holds the ledger at [metadata.csv] and every local file under
    the audio directory at its relative path.  In every run of a tab the
    publish step is entered once when the ledger was written, right after
    that write, and not at all otherwise, in particular not when the call
    of the model raised. *)
Theorem publish_steps_and_invocation :
  let key := ("dataset", HF_REPO_ID) in
  let audio := Py.os_path_join BASE_DIR ["audio"] in
  let calls := [CreateRepo HF_REPO_ID "dataset" true HF_TOKEN;
                UploadFolder audio HF_REPO_ID "dataset" HF_TOKEN;
                UploadFile METADATA_PATH "metadata.csv" HF_REPO_ID "dataset"
                  HF_TOKEN] in
  (forall w,
      let o := push_to_huggingface w in
      hub_calls (events_since w (world_of o)) = calls
      /\ is_Some (hub (world_of o) !! key)
      /\ (forall ledger,
            fs w !! METADATA_PATH = Some ledger ->
            o = Ok tt (world_of o)
            /\ exists remote,
                 hub (world_of o) !! key = Some remote
                 /\ remote "metadata.csv" = Some ledger
                 /\ forall rel contents,
                      Py.startswith_sep rel = false -> rel <> "metadata.csv" ->
                      fs w !! (audio +:+ "/" +:+ rel) = Some contents ->
                      remote rel = Some contents))
  /\ (forall w,
        let o := Hub.create_repo HF_REPO_ID "dataset" true HF_TOKEN w in
        o = Ok tt (world_of o) /\ fs (world_of o) = fs w
        /\ hub (world_of o)
           = match hub w !! key with
             | Some _ => hub w
             | None => <[key := fun _ => None]> (hub w)
             end)
  /\ (forall s w,
        let o := run_tab s w in
        let events := events_since w (world_of o) in
        ((exists contents, Wrote METADATA_PATH contents ∈ events) ->
         publish_count events = 1%nat
         /\ exists before contents after,
              events = before ++ [Wrote METADATA_PATH contents] ++ after
              /\ hub_calls before = [] /\ hub_calls after = calls)
        /\ ((forall contents, Wrote METADATA_PATH contents ∉ events) ->
            publish_count events = 0%nat /\ hub_calls events = [])
        /\ ((exists p e, Transcribe p (Raised e) ∈ events) ->
            publish_count events = 0%nat /\ hub_calls events = [])).
Proof.
  cbv zeta. split; [|split].
  - intros w. rewrite push_to_huggingface_eq. cbv zeta.
    destruct (fs w !! METADATA_PATH) as [ledger|] eqn:Hledger;
      cbn [world_of hub trace]; unfold events_since; cbn [trace];
      rewrite drop_app_length; (split; [done|]);
      rewrite lookup_insert_eq; (split; [by eexists|]); [|done].
    intros ? [= <-]. split; [done|]. eexists. split; [done|].
    cbv beta. split; [by rewrite String.eqb_refl|].
    intros rel contents Hrel Hne Hfile. rewrite eqb_ne by done.
    unfold Hub.mirror. by rewrite Hrel, Hfile.
  - intros w. unfold Hub.create_repo. run.
    cbn [hub log]. by destruct (hub w !! ("dataset", HF_REPO_ID)).
  - intros s w.
    destruct (tab_run_cases (run_tab s w) w (run_tab_cases s w))
      as (pre & Hpre & Hcases).
    assert (forall contents, Wrote METADATA_PATH contents ∉ pre) as Hnowrite.
    { intros contents. apply quiet_not_in; [done|apply String.eqb_refl]. }
    assert (forall p r, Transcribe p r ∉ pre) as Hnocall.
    { intros p r. by apply quiet_not_in. }
    pose proof (quiet_hub_calls pre Hpre) as Hhubpre.
    pose proof (quiet_publish_count pre Hpre) as Hpubpre.
    destruct Hcases
      as [(Htrace & _)
         |[(p' & e' & _ & Htrace & _)
          |[(p' & _ & Htrace & _)
           |[(p' & text' & contents' & e' & _ & _ & _ & _ & Htrace & _)
            |(p' & filename & audio_type & done & text' & df & _ & _ & _ & _ & _ & Htrace)]]]];
      apply events_since_app in Htrace; rewrite Htrace;
      rewrite ?hub_calls_app, ?publish_count_app, ?Hhubpre, ?Hpubpre.
    1-4: split; [intros (contents & Hin); exfalso;
                 try (apply elem_of_app in Hin as [Hin|Hin]);
                 [by apply Hnowrite in Hin|..]; elem_cases Hin
                |by split].
    split; [|split].
    + intros _. split; [done|].
      exists (pre ++ [Transcribe p' (Returned text');
                      St "markdown" "### 📝 Transcription"; St "write" text']),
        (to_csv df false).
      eexists. split.
      { rewrite <- (assoc_L (++) pre). reflexivity. }
      rewrite hub_calls_app, Hhubpre. done.
    + intros Hnone. exfalso. apply (Hnone (to_csv df false)).
      apply elem_of_app. right. cbn [List.app].
      do 3 apply list_elem_of_further. apply list_elem_of_here.
    + intros (p & e & [Hin|Hin]%elem_of_app); [by apply Hnocall in Hin|].
      elem_cases Hin.
Qed.

End Claims.

(** ** The ledger *)

Section LedgerClaims.
Context `{Config, Pandas}.



End LedgerClaims.

(** ** Persisting a sample *)

Section PersistClaims.
Context `{Config, Scipy}.

Lemma even_double (n : nat) : Nat.even (2 * n) = true.
Proof. apply Nat.even_spec. by exists n. Qed.

(** C5.  For every sequence of 16-bit samples whose WAV file fits the
    32-bit size fields of the RIFF container (36 bytes of header fields and
    two bytes a sample, at most 4294967295, that is every recording short
    of 4 GiB), given as little-endian recording bytes: persisting the
    recording writes a file whose name ends in [.wav], and reading that
    file back gives the rate 44100 and the same samples. *)
Theorem recording_round_trip (samples : list Z) (w : World) :
  Forall Np.is_int16 samples ->
  36 + 2 * Z.of_nat (length samples) <= 4294967295 ->
  exists path filename w' file,
    save_recorded_audio (Np.tobytes_int16 samples) w
    = Ok (path, filename, "recorded") w'
    /\ Py.endswith filename ".wav"
    /\ fs w' !! path = Some file
    /\ Wavfile.read file = Some (44100, samples).
Proof.
  intros Hsamples Hfits. rewrite save_recorded_audio_eq. cbv zeta.
  rewrite tobytes_length, even_double, int16_array_tobytes by done.
  unfold Np.nbytes_int16.
  destruct (Z.gtb_spec (36 + 2 * Z.of_nat (length samples)) 4294967295) as [?|_];
    [lia|].
  eexists _, _, _, _. split; [done|]. split; [by eexists|]. world_norm.
  rewrite lookup_insert_eq. split; [done|].
  by apply read_file_bytes.
Qed.

(** C9.  A recording of odd length is refused: [np.frombuffer] raises
    [ValueError], so does [save_recorded_audio], and no file is written.  A
    recording of even length is decoded into one 16-bit sample for every
    two bytes. *)
Theorem recording_needs_even_length (audio_bytes : bytes) (w : World) :
  (Nat.Odd (length audio_bytes) ->
   exists e w',
     Np.frombuffer_int16 audio_bytes w = Raise e w
     /\ save_recorded_audio audio_bytes w = Raise e w'
     /\ exc_type e = "ValueError"
     /\ fs w' = fs w
     /\ events_since w w' = [])
  /\ (Nat.Even (length audio_bytes) ->
      exists audio_np,
        Np.frombuffer_int16 audio_bytes w = Ok audio_np w
        /\ length audio_np = (length audio_bytes / 2)%nat
        /\ Forall Np.is_int16 audio_np).
Proof.
  split.
  - intros Hodd. rewrite save_recorded_audio_eq. cbv zeta.
    unfold Np.frombuffer_int16.
    destruct (Nat.even (length audio_bytes)) eqn:Heven.
    { apply Nat.even_spec in Heven. by destruct (Nat.Even_Odd_False _ Heven Hodd). }
    eexists _, _. unfold events_since. world_norm.
    split; [reflexivity|]. split; [reflexivity|].
    cbn [exc_type fs trace]. by rewrite drop_all.
  - intros Heven. apply Nat.even_spec in Heven.
    unfold Np.frombuffer_int16. rewrite Heven. eexists. split; [done|].
    split; [apply int16_array_length|apply int16_array_range].
Qed.

(** Two strings with equal prefixes of equal length have equal rests. *)
Lemma sapp_inj_prefix (s s' t t' : string) :
  String.length s = String.length s' -> s +:+ t = s' +:+ t' -> s = s' /\ t = t'.
Proof.
  revert s'. induction s as [|c s IH]; intros [|c' s'] Hlen Heq; try discriminate Hlen.
  - by rewrite !sapp_nil_l in Heq.
  - rewrite !sapp_cons in Heq. injection Heq as -> Heq.
    injection Hlen as Hlen. by destruct (IH s' Hlen Heq) as [-> ->].
Qed.

(** C6.  Persisting an upload writes the uploaded bytes, unchanged, to a
    file whose name ends in a dot and the lower-cased part of the original
    name after its last dot; for [clip.MP3] the name ends in [.mp3]. *)
Theorem upload_keeps_extension_and_bytes :
  (forall uploaded_file w,
      exists path filename w',
        save_uploaded_file uploaded_file w = Ok (path, filename, "uploaded") w'
        /\ Py.endswith filename
             ("." +:+ Py.lower (Py.after_last "." (name uploaded_file)))
        /\ fs w' !! path = Some (data uploaded_file))
  /\ (forall contents w,
        exists path filename w',
          save_uploaded_file (mkUploadedFile "clip.MP3" contents) w
          = Ok (path, filename, "uploaded") w'
          /\ Py.endswith filename ".mp3"
          /\ fs w' !! path = Some contents).
Proof.
  split.
  - intros uploaded_file w. rewrite save_uploaded_file_eq. cbv zeta.
    eexists _, _, _. split; [done|]. rewrite last_split_after_last.
    split; [by eexists|]. world_norm. by rewrite lookup_insert_eq.
  - intros contents w. rewrite save_uploaded_file_eq. cbv zeta.
    eexists _, _, _. split; [done|]. split; [by eexists|].
    world_norm. by rewrite lookup_insert_eq.
Qed.

(** C8.  Two persist operations on samples of the same source type whose
    generated identifiers differ write to different paths: for uploads the
    path is the uploaded directory joined with identifier, dot and
    extension, for recordings the recorded directory joined with
    identifier and [.wav]. *)
Theorem distinct_identifiers_distinct_paths (w1 w2 : World) :
  entropy w1 (drawn w1) <> entropy w2 (drawn w2) ->
  (forall f1 f2,
      exists p1 n1 w1' p2 n2 w2',
        save_uploaded_file f1 w1 = Ok (p1, n1, "uploaded") w1'
        /\ save_uploaded_file f2 w2 = Ok (p2, n2, "uploaded") w2'
        /\ p1 = Py.os_path_join UPLOADED_DIR
                  [Uuid.str (entropy w1 (drawn w1)) +:+ "."
                   +:+ Py.lower (Py.after_last "." (name f1))]
        /\ p1 <> p2)
  /\ (forall b1 b2 p1 n1 t1 w1' p2 n2 t2 w2',
        save_recorded_audio b1 w1 = Ok (p1, n1, t1) w1' ->
        save_recorded_audio b2 w2 = Ok (p2, n2, t2) w2' ->
        p1 = Py.os_path_join RECORDED_DIR
               [Uuid.str (entropy w1 (drawn w1)) +:+ ".wav"]
        /\ p1 <> p2).
Proof.
  intros Hne. split.
  - intros f1 f2. rewrite !save_uploaded_file_eq. cbv zeta.
    eexists _, _, _, _, _, _. split; [done|]. split; [done|].
    rewrite last_split_after_last. split; [done|].
    intros Heq. apply uploaded_path_inj in Heq; [|apply str_relative..].
    apply sapp_inj_prefix in Heq as [Heq _]; [|by rewrite !str_length].
    by apply str_inj in Heq.
  - intros b1 b2 p1 n1 t1 w1' p2 n2 t2 w2' Hsave1 Hsave2.
    rewrite save_recorded_audio_eq in Hsave1, Hsave2. cbv zeta in Hsave1, Hsave2.
    assert (p1 = Py.os_path_join RECORDED_DIR
                   [Uuid.str (entropy w1 (drawn w1)) +:+ ".wav"]) as ->.
    { destruct (Nat.even _); [|done].
      destruct (_ >? _); [destruct (wavfile_write_oversized _ _); [|done]|];
        congruence. }
    assert (p2 = Py.os_path_join RECORDED_DIR
                   [Uuid.str (entropy w2 (drawn w2)) +:+ ".wav"]) as ->.
    { clear Hsave1. destruct (Nat.even _); [|done].
      destruct (_ >? _); [destruct (wavfile_write_oversized _ _); [|done]|];
        congruence. }
    split; [done|]. intros Heq.
    apply recorded_path_inj in Heq; [|apply str_relative..].
    apply sapp_inj_r in Heq. by apply str_inj in Heq.
Qed.

(** C10.  The outcome of persisting an upload depends on its name only
    through the part after the last dot: two uploads of the same bytes whose
    names agree after the last dot are persisted alike, in particular two
    names [base1.ext] and [base2.ext]; the path is the uploaded directory
    joined with the identifier, a dot and that part lower-cased, and no
    other file is written. *)
Theorem upload_path_ignores_base_name (contents : bytes) (w : World) :
  (forall name1 name2,
      Py.after_last "." name1 = Py.after_last "." name2 ->
      save_uploaded_file (mkUploadedFile name1 contents) w
      = save_uploaded_file (mkUploadedFile name2 contents) w)
  /\ (forall base1 base2 ext,
        Py.sep_free "." ext = true ->
        save_uploaded_file (mkUploadedFile (base1 +:+ "." +:+ ext) contents) w
        = save_uploaded_file (mkUploadedFile (base2 +:+ "." +:+ ext) contents) w)
  /\ (forall base ext,
        Py.sep_free "." ext = true ->
        exists w',
          let filename := Uuid.str (entropy w (drawn w)) +:+ "." +:+ Py.lower ext in
          let path := Py.os_path_join UPLOADED_DIR [filename] in
          save_uploaded_file (mkUploadedFile (base +:+ "." +:+ ext) contents) w
          = Ok (path, filename, "uploaded") w'
          /\ fs w' = <[path := contents]> (fs w)).
Proof.
  assert (forall name1 name2,
      Py.after_last "." name1 = Py.after_last "." name2 ->
      save_uploaded_file (mkUploadedFile name1 contents) w
      = save_uploaded_file (mkUploadedFile name2 contents) w) as Hsame.
  { intros name1 name2 Heq. rewrite !save_uploaded_file_eq. cbv zeta.
    cbn [name data]. by rewrite !last_split_after_last, Heq. }
  split; [done|]. split.
  - intros base1 base2 ext Hext. apply Hsame.
    by rewrite !(after_last_app "." _ ext Hext).
  - intros base ext Hext. rewrite save_uploaded_file_eq. cbv zeta.
    cbn [name data]. rewrite last_split_after_last, (after_last_app "." _ ext Hext).
    by eexists.
Qed.

End PersistClaims.

(* ===================================================================== *)
(** * Part V: the theorems at concrete inputs *)
(* ===================================================================== *)

(** C1 at the upload of [clip.MP3] to a fresh deployment whose model
    raises. *)
Lemma transcription_failure_short_circuits_witness :
  (exists w',
      @transcribe_audio Demo.whisper_broken "/app/audio/uploaded/x.mp3" Demo.fresh
      = Ok None w' /\ fs w' = fs Demo.fresh /\ hub w' = hub Demo.fresh)
  /\ (let o := @run_tab Demo.config SimpleCsv.pandas Demo.whisper_broken Demo.scipy
                 (Upload (Some Demo.clip)) Demo.fresh in
      o = Ok tt (world_of o)
      /\ publish_count (events_since Demo.fresh (world_of o)) = 0%nat).
Proof.
  split.
  - apply (proj1 (@transcription_failure_short_circuits
                    Demo.config SimpleCsv.pandas Demo.whisper_broken Demo.scipy)
             _ _ (mkExc "RuntimeError" "CUDA out of memory")).
    reflexivity.
  - pose proof (proj2 (@transcription_failure_short_circuits
                         Demo.config SimpleCsv.pandas Demo.whisper_broken Demo.scipy)
                  (Upload (Some Demo.clip)) Demo.fresh) as Hrun.
    cbv zeta in Hrun. destruct Hrun as (Ho & _ & _ & _ & Hcount & _).
    + eexists _, _. vm_compute. do 3 right. left.
    + by split.
Defined.




(** C3 at the upload of [clip.MP3] to a fresh deployment whose model hears
    "hello": the row is written and its text is the transcript. *)
Lemma row_written_iff_nonempty_transcript_witness :
  let o := @run_tab Demo.config SimpleCsv.pandas Demo.whisper_hello Demo.scipy
             (Upload (Some Demo.clip)) Demo.fresh in
  exists df r,
    fs (world_of o) !! @METADATA_PATH Demo.config
    = Some (@to_csv SimpleCsv.pandas df false)
    /\ last (Pd.rows df) = Some r /\ r !! "text" = Some " hello".
Proof.
  cbv zeta.
  destruct (proj2 (@row_written_iff_nonempty_transcript
                      Demo.config SimpleCsv.pandas Demo.whisper_hello Demo.scipy
                      (Upload (Some Demo.clip)) Demo.fresh)
               (Py.os_path_join (@UPLOADED_DIR Demo.config)
                  [Uuid.str Demo.uuid_a +:+ ".mp3"]) " hello")
    as (df & r & _ & Hfs & Hlast & Hr).
  - vm_compute. do 3 right. left.
  - discriminate.
  - intros contents Hnone. vm_compute in Hnone. discriminate Hnone.
  - by exists df, r.
Defined.

(** The claim as worded fails for a model that returns the empty string:
    the transcription succeeds, the run ends normally, and no row is
    written. *)
Lemma empty_transcript_writes_no_row :
  let o := @run_tab Demo.config SimpleCsv.pandas Demo.whisper_silent Demo.scipy
             (Upload (Some Demo.clip)) Demo.fresh in
  let events := events_since Demo.fresh (world_of o) in
  (exists p, Transcribe p (Returned EmptyString) ∈ events)
  /\ o = Ok tt (world_of o)
  /\ fs (world_of o) !! @METADATA_PATH Demo.config = None
  /\ (forall contents, Wrote (@METADATA_PATH Demo.config) contents ∉ events).
Proof.
  cbv zeta. split; [|split; [|split]].
  - eexists. vm_compute. do 3 right. left.
  - vm_compute. reflexivity.
  - vm_compute. reflexivity.
  - intros contents Hin. vm_compute in Hin. elem_cases Hin.
Qed.



(** C5 at the five samples of the claim. *)
Lemma recording_round_trip_witness :
  exists path filename w' file,
    @save_recorded_audio Demo.config Demo.scipy Demo.recording Demo.fresh
    = Ok (path, filename, "recorded") w'
    /\ fs w' !! path = Some file
    /\ Wavfile.read file = Some (44100, [0; 1000; -1000; 32767; -32768]).
Proof.
  destruct (@recording_round_trip Demo.config Demo.scipy Demo.samples Demo.fresh)
    as (path & filename & w' & file & Hsave & _ & Hfile & Hread).
  - repeat constructor; unfold Np.is_int16; lia.
  - cbn. lia.
  - by exists path, filename, w', file.
Defined.

(** C7 at a deployment that holds a ledger: the publish ends normally and
    the repository holds the ledger at [metadata.csv]. *)
Lemma publish_steps_and_invocation_witness :
  let o := @push_to_huggingface Demo.config Demo.fresh_with_ledger3 in
  o = Ok tt (world_of o)
  /\ exists remote,
       hub (world_of o) !! ("dataset", "user/voice-dataset") = Some remote
       /\ remote "metadata.csv" = Some Demo.ledger3.
Proof.
  cbv zeta.
  pose proof (@publish_steps_and_invocation
                Demo.config SimpleCsv.pandas Demo.whisper_hello Demo.scipy) as Hpublish.
  cbv zeta in Hpublish. destruct Hpublish as (Hpush & _ & _).
  destruct (Hpush Demo.fresh_with_ledger3) as (_ & _ & Hledger).
  destruct (Hledger Demo.ledger3 (lookup_insert_eq _ _ _))
    as (Ho & remote & Hhub & Hmeta & _).
  split; [exact Ho|]. by exists remote.
Defined.

(** C8 at two uploads of the same file, one after the other. *)
Lemma distinct_identifiers_distinct_paths_witness :
  exists p1 n1 w1' p2 n2 w2',
    @save_uploaded_file Demo.config Demo.clip Demo.fresh
    = Ok (p1, n1, "uploaded") w1'
    /\ @save_uploaded_file Demo.config Demo.clip (draw Demo.fresh)
       = Ok (p2, n2, "uploaded") w2'
    /\ p1 <> p2.
Proof.
  assert (entropy Demo.fresh (drawn Demo.fresh)
          <> entropy (draw Demo.fresh) (drawn (draw Demo.fresh))) as Hne.
  { intros Heq. apply (f_equal Uuid.uuid_bytes) in Heq.
    vm_compute in Heq. discriminate Heq. }
  destruct (proj1 (@distinct_identifiers_distinct_paths
                     Demo.config Demo.scipy Demo.fresh (draw Demo.fresh) Hne)
              Demo.clip Demo.clip)
    as (p1 & n1 & w1' & p2 & n2 & w2' & Hsave1 & Hsave2 & _ & Hpaths).
  by exists p1, n1, w1', p2, n2, w2'.
Defined.

(** C9 at a recording of three bytes and at the recording of five
    samples. *)
Lemma recording_needs_even_length_witness :
  (exists e w',
      @save_recorded_audio Demo.config Demo.scipy [x01; x02; x03] Demo.fresh = Raise e w'
      /\ exc_type e = "ValueError" /\ fs w' = fs Demo.fresh)
  /\ (exists audio_np,
        Np.frombuffer_int16 Demo.recording Demo.fresh = Ok audio_np Demo.fresh
        /\ length audio_np = 5%nat).
Proof.
  split.
  - destruct (proj1 (@recording_needs_even_length
                       Demo.config Demo.scipy [x01; x02; x03] Demo.fresh))
      as (e & w' & _ & Hsave & Htype & Hfs & _).
    + exists 1%nat. reflexivity.
    + by exists e, w'.
  - destruct (proj2 (@recording_needs_even_length
                       Demo.config Demo.scipy Demo.recording Demo.fresh))
      as (audio_np & Hdecode & Hlen & _).
    + exists 5%nat. reflexivity.
    + exists audio_np. split; [exact Hdecode|exact Hlen].
Defined.

(** C10 at two names that end in [.MP3], one of them a path out of the
    storage directory. *)
Lemma upload_path_ignores_base_name_witness :
  @save_uploaded_file Demo.config
    (mkUploadedFile "clip.MP3" [x49; x44; x33]) Demo.fresh
  = @save_uploaded_file Demo.config
      (mkUploadedFile "../../etc/passwd.MP3" [x49; x44; x33]) Demo.fresh.
Proof.
  exact (proj1 (proj2 (@upload_path_ignores_base_name
                         Demo.config [x49; x44; x33] Demo.fresh))
           "clip" "../../etc/passwd" "MP3" eq_refl).
Defined.

(* ===================================================================== *)
(** * Part VI: further properties of the script *)
(* ===================================================================== *)

Section Failures.
Context `{Config, Pandas, Whisper, Scipy}.

Local Abbreviation quiet pre :=
  (List.filter (is_pipeline_event METADATA_PATH) pre = []) (only parsing).

(** A ledger pandas cannot load is never overwritten.  [save_metadata]
    raises pandas' exception and leaves the world as it was; a run of a tab
    keeps the ledger file, makes no call to the hub and leaves the hub as it
    was; and when the model returned a transcript that is not empty, the run
    ends with pandas' exception. *)
Theorem unreadable_ledger_is_kept (s : submission) (w : World)
    (contents : bytes) (e : PyExc) :
  fs w !! METADATA_PATH = Some contents ->
  read_csv contents = Raised e ->
  let o := run_tab s w in
  let events := events_since w (world_of o) in
  (forall audio_type filename text,
      save_metadata audio_type filename text w = Raise e w)
  /\ fs (world_of o) !! METADATA_PATH = Some contents
  /\ (forall written, Wrote METADATA_PATH written ∉ events)
  /\ hub (world_of o) = hub w
  /\ hub_calls events = []
  /\ (forall p text,
        Transcribe p (Returned text) ∈ events -> text <> EmptyString ->
        o = Raise e (world_of o)).
Proof.
  intros Hfile Hread o events. subst events. split.
  { intros audio_type filename text. rewrite save_metadata_eq. cbv zeta.
    by rewrite Hfile, Hread. }
  destruct (tab_run_cases o w (run_tab_cases s w)) as (pre & Hpre & Hcases).
  assert (forall written, Wrote METADATA_PATH written ∉ pre) as Hnowrite.
  { intros written. apply quiet_not_in; [done|apply String.eqb_refl]. }
  assert (forall p r, Transcribe p r ∉ pre) as Hnocall.
  { intros p r. by apply quiet_not_in. }
  pose proof (quiet_hub_calls pre Hpre) as Hhubpre.
  destruct Hcases
    as [(Htrace & Hfs & Hhub)
       |[(p' & e' & Ho & Htrace & Hfs & Hhub)
        |[(p' & Ho & Htrace & Hfs & Hhub)
         |[(p' & text' & contents' & e' & _ & Hledger & Hread' & Ho & Htrace & Hfs & Hhub)
          |(p' & filename & audio_type & done & text' & df & _ & Happ & _)]]]].
  5: { exfalso. destruct Happ as [[Hnone _]|(c & df0 & Hc & Hdf0 & _)]; congruence. }
  all: apply events_since_app in Htrace; rewrite Htrace, Hfs, Hhub;
    rewrite ?hub_calls_app, ?Hhubpre.
  all: split; [done|]; split;
    [intros written Hin; try (apply elem_of_app in Hin as [Hin|Hin]);
       [by apply Hnowrite in Hin|..]; elem_cases Hin|].
  all: split; [done|]; split; [done|]; intros p text Hin Htext.
  - by apply Hnocall in Hin.
  - apply elem_of_app in Hin as [Hin|Hin]; [by apply Hnocall in Hin|].
    elem_cases Hin.
  - apply elem_of_app in Hin as [Hin|Hin]; [by apply Hnocall in Hin|].
    elem_cases Hin. by injection Hin as _ ->.
  - rewrite Ho at 1. congruence.
Qed.

End Failures.

Section RaisingRuns.
Context `{Config, Pandas, Whisper, Scipy}.

Lemma even_half (n : nat) : Nat.even n = true -> (2 * (n / 2))%nat = n.
Proof.
  intros [k ->]%Nat.even_spec.
  replace (2 * k / 2)%nat with k; [done|].
  symmetry. rewrite Nat.mul_comm. by apply Nat.div_mul.
Qed.


End RaisingRuns.

Section EndToEnd.
Context `{Config, Pandas, Whisper, Scipy}.

Local Abbreviation new_row audio_type filename text :=
  (Pd.DataFrame_of_record
     [("audio", audio_ref audio_type filename); ("text", text)]) (only parsing).

Lemma display_metadata_eq (w : World) :
  let w0 := log (St "subheader" "📄 Current Dataset Metadata") w in
  display_metadata w
  = match fs w !! METADATA_PATH with
    | None => Ok tt w
    | Some contents =>
        match read_csv contents with
        | Returned df => Ok tt (log (StDataframe df) w0)
        | Raised e => Raise e w0
        end
    end.
Proof.
  cbv zeta. unfold display_metadata, pd_read_csv. run.
  destruct (fs w !! METADATA_PATH) as [contents|] eqn:Hfile.
  - rewrite bool_decide_eq_true_2 by eauto. cbn [log fs]. rewrite Hfile.
    by destruct (read_csv contents).
  - rewrite bool_decide_eq_false_2; [done|]. by intros [? ?].
Qed.

(** The path of an uploaded sample below the audio folder. *)
Lemma uploaded_path_in_audio_folder (filename : string) :
  Py.startswith_sep filename = false ->
  Py.os_path_join UPLOADED_DIR [filename]
  = Py.os_path_join BASE_DIR ["audio"] +:+ "/" +:+ "uploaded/" +:+ filename.
Proof.
  intros Hrel. rewrite uploaded_path_eq, audio_folder_eq by done.
  by rewrite !sapp_assoc.
Qed.

(** The upload tab when everything goes well, step by step: the world it
    leaves. *)
Lemma upload_tab_ok (file : UploadedFile) (w : World) (text : string)
    (df : Pd.DataFrame) :
  let key := ("dataset", HF_REPO_ID) in
  let audio := Py.os_path_join BASE_DIR ["audio"] in
  let filename := Uuid.str (entropy w (drawn w)) +:+ "."
                  +:+ Py.lower (Py.last_item (Py.split "." (name file))) in
  let path := Py.os_path_join UPLOADED_DIR [filename] in
  let files := <[METADATA_PATH := to_csv df false]> (<[path := data file]> (fs w)) in
  let mirrored := Hub.mirror audio files (default (fun _ => None) (hub w !! key)) in
  model_transcribe path (<[path := data file]> (fs w)) = Returned text ->
  text <> EmptyString ->
  (fs w !! METADATA_PATH = None /\ df = new_row "uploaded" filename text)
  \/ (exists contents df0,
        fs w !! METADATA_PATH = Some contents
        /\ read_csv contents = Returned df0
        /\ df = Pd.concat df0 (new_row "uploaded" filename text)) ->
  upload_tab (Some file) w
  = Ok tt (mkWorld files
             (<[key := fun p => if String.eqb p "metadata.csv"
                                then Some (to_csv df false) else mirrored p]> (hub w))
             (trace w ++ [St "subheader" "📂 Upload audio file";
                          Wrote path (data file); St "audio" path;
                          Transcribe path (Returned text);
                          St "markdown" "### 📝 Transcription"; St "write" text;
                          Wrote METADATA_PATH (to_csv df false);
                          Print ("✅ Metadata saved: " +:+ METADATA_PATH);
                          CreateRepo HF_REPO_ID "dataset" true HF_TOKEN;
                          Print "✅ Repo exists or created successfully";
                          UploadFolder audio HF_REPO_ID "dataset" HF_TOKEN;
                          UploadFile METADATA_PATH "metadata.csv" HF_REPO_ID
                            "dataset" HF_TOKEN;
                          Print "✅ Upload complete";
                          St "success" "✅ Uploaded audio saved & uploaded!"])
             (entropy w) (S (drawn w))).
Proof.
  cbv zeta. intros Hmodel Htext Hdf.
  pose proof (uploaded_path_ne_metadata
                (Uuid.str (entropy w (drawn w)) +:+ "."
                 +:+ Py.lower (Py.last_item (Py.split "." (name file))))
                (str_relative _ _)) as Hne.
  rewrite upload_tab_eq. cbv zeta.
  unfold bind at 1. rewrite save_uploaded_file_eq. cbv zeta.
  unfold bind at 1, st at 1, modify. cbn [fst snd].
  rewrite orchestrate_eq. cbv zeta. world_norm. rewrite Hmodel.
  destruct text as [|c text]; [done|].
  rewrite append_and_publish_eq. world_norm.
  rewrite lookup_insert_ne by done.
  destruct Hdf as [[Hnone ->]|(contents & df0 & Hsome & Hread & ->)].
  - rewrite Hnone. world_norm. reflexivity.
  - rewrite Hsome, Hread. world_norm. reflexivity.
Qed.

(** One run of the script on an upload, with no recording, from start to
    end when everything goes well: the model returns a transcript that is
    not empty, the ledger is absent or loads, and pandas loads what it
    wrote.  The script ends normally; one identifier was drawn; the files
    are those of the start, the sample at its path and the ledger written
    from the frame with the new row last; the dataset was published once;
    and the last thing shown is the table pandas loaded from the ledger
    just written. *)
Theorem script_upload_end_to_end (file : UploadedFile) (w : World)
    (text : string) (df shown : Pd.DataFrame) :
  let filename := Uuid.str (entropy w (drawn w)) +:+ "."
                  +:+ Py.lower (Py.last_item (Py.split "." (name file))) in
  let path := Py.os_path_join UPLOADED_DIR [filename] in
  model_transcribe path (<[path := data file]> (fs w)) = Returned text ->
  text <> EmptyString ->
  (fs w !! METADATA_PATH = None /\ df = new_row "uploaded" filename text)
  \/ (exists contents df0,
        fs w !! METADATA_PATH = Some contents
        /\ read_csv contents = Returned df0
        /\ df = Pd.concat df0 (new_row "uploaded" filename text)) ->
  read_csv (to_csv df false) = Returned shown ->
  exists w',
    app_py None (Some file) w = Ok tt w'
    /\ fs w' = <[METADATA_PATH := to_csv df false]> (<[path := data file]> (fs w))
    /\ drawn w' = S (drawn w)
    /\ publish_count (events_since w w') = 1%nat
    /\ last (Pd.rows df)
       = Some (list_to_map [("audio", "audio/uploaded/" +:+ filename);
                            ("text", text)])
    /\ last (trace w') = Some (StDataframe shown).
Proof.
  cbv zeta. intros Hmodel Htext Hdf Hshown.
  unfold app_py. unfold bind at 1, st at 1, modify.
  unfold bind at 1, st at 1, modify.
  unfold bind at 1. rewrite record_tab_eq. cbv zeta.
  unfold bind at 1. rewrite (upload_tab_ok file _ text df); [|done..].
  rewrite display_metadata_eq. cbv zeta. cbn [fs log].
  rewrite lookup_insert_eq, Hshown.
  eexists. split; [reflexivity|]. unfold events_since. world_norm.
  rewrite drop_app_length.
  split; [done|]. split; [done|]. split; [done|].
  split; [|by rewrite last_app_cons].
  destruct Hdf as [[_ ->]|(contents & df0 & _ & _ & ->)];
    cbn [Pd.rows Pd.concat Pd.DataFrame_of_record]; by rewrite ?last_snoc.
Qed.

(** Where a published upload lands.  After the upload tab went well, the
    repository holds the ledger at [metadata.csv], as it is on disk, and the
    bytes of the sample at [uploaded/{filename}], its path below the audio
    folder; the row of the ledger names the sample
    [audio/uploaded/{filename}].  Other repositories are as they were.  At
    the path the row names, the repository holds what it held before,
    unless a local file lies at that path below the audio folder. *)
Theorem published_upload_location (file : UploadedFile) (w : World)
    (text : string) (df : Pd.DataFrame) :
  let key := ("dataset", HF_REPO_ID) in
  let audio := Py.os_path_join BASE_DIR ["audio"] in
  let filename := Uuid.str (entropy w (drawn w)) +:+ "."
                  +:+ Py.lower (Py.last_item (Py.split "." (name file))) in
  let path := Py.os_path_join UPLOADED_DIR [filename] in
  model_transcribe path (<[path := data file]> (fs w)) = Returned text ->
  text <> EmptyString ->
  (fs w !! METADATA_PATH = None /\ df = new_row "uploaded" filename text)
  \/ (exists contents df0,
        fs w !! METADATA_PATH = Some contents
        /\ read_csv contents = Returned df0
        /\ df = Pd.concat df0 (new_row "uploaded" filename text)) ->
  exists w' remote r,
    upload_tab (Some file) w = Ok tt w'
    /\ hub w' !! key = Some remote
    /\ remote "metadata.csv" = fs w' !! METADATA_PATH
    /\ remote ("uploaded/" +:+ filename) = Some (data file)
    /\ fs w' !! path = Some (data file)
    /\ last (Pd.rows df) = Some r
    /\ r !! "audio" = Some ("audio/uploaded/" +:+ filename)
    /\ (forall other, other <> key -> hub w' !! other = hub w !! other)
    /\ (fs w !! (audio +:+ "/" +:+ "audio/uploaded/" +:+ filename) = None ->
        remote ("audio/uploaded/" +:+ filename)
        = default (fun _ => None) (hub w !! key) ("audio/uploaded/" +:+ filename)).
Proof.
  cbv zeta. intros Hmodel Htext Hdf.
  pose proof (str_relative (entropy w (drawn w))
                ("." +:+ Py.lower (Py.last_item (Py.split "." (name file)))))
    as Hrel.
  pose proof (uploaded_path_ne_metadata _ Hrel) as Hne.
  assert (forall t, Py.startswith_sep ("uploaded/" +:+ t) = false) as Hup
    by reflexivity.
  assert (forall t, Py.startswith_sep ("audio/uploaded/" +:+ t) = false) as Haud
    by reflexivity.
  rewrite (upload_tab_ok file w text df) by done.
  eexists _, _, _. split; [reflexivity|]. cbn [hub fs].
  rewrite lookup_insert_eq. split; [reflexivity|]. cbv beta.
  split; [by rewrite lookup_insert_eq|]. split.
  { rewrite eqb_ne by done. unfold Hub.mirror.
    rewrite Hup.
    rewrite <- uploaded_path_in_audio_folder by done.
    by rewrite lookup_insert_ne, lookup_insert_eq. }
  split; [by rewrite lookup_insert_ne, lookup_insert_eq|].
  split.
  { destruct Hdf as [[_ ->]|(contents & df0 & _ & _ & ->)];
      cbn [Pd.rows Pd.concat Pd.DataFrame_of_record]; by rewrite ?last_snoc. }
  split; [done|]. split.
  { intros other Hother. by rewrite lookup_insert_ne. }
  intros Hfree. rewrite eqb_ne by done. unfold Hub.mirror.
  rewrite Haud.
  rewrite !lookup_insert_ne, Hfree; [done| |].
  - rewrite uploaded_path_in_audio_folder by done.
    intros Heq. apply sapp_inj_l in Heq. discriminate Heq.
  - rewrite METADATA_PATH_eq, audio_folder_eq, !sapp_assoc.
    intros Heq. do 2 apply sapp_inj_l in Heq. discriminate Heq.
Qed.

End EndToEnd.

Section RecordedFile.
Context `{Config, Scipy}.

Lemma byte_of_Z_mod (z : Z) : Py.byte_of_Z (z mod 256) = Py.byte_of_Z z.
Proof. unfold Py.byte_of_Z. by rewrite Z.mod_mod. Qed.

(** A sample read from two bytes is written back as these two bytes. *)
Lemma pack_of_int16 (lo hi : byte) :
  Py.pack_u16 (Np.to_int16 (Py.unpack_u16 lo hi)) = [lo; hi].
Proof.
  pose proof (Z_of_byte_range lo) as Hlo. pose proof (Z_of_byte_range hi) as Hhi.
  unfold Py.pack_u16, Np.to_int16, Py.unpack_u16.
  set (v := Py.Z_of_byte lo + 256 * Py.Z_of_byte hi).
  assert (exists k, (if v <? 32768 then v else v - 65536)
                    = Py.Z_of_byte lo + 256 * (Py.Z_of_byte hi + 256 * k))
    as [k ->].
  { destruct (v <? 32768); [exists 0|exists (-1)]; subst v; lia. }
  rewrite <- (byte_of_Z_mod (_ + _)), <- (byte_of_Z_mod (_ / _)).
  replace ((Py.Z_of_byte lo + 256 * (Py.Z_of_byte hi + 256 * k)) mod 256)
    with (Py.Z_of_byte lo).
  2:{ apply (Z.mod_unique _ _ (Py.Z_of_byte hi + 256 * k)); lia. }
  replace ((Py.Z_of_byte lo + 256 * (Py.Z_of_byte hi + 256 * k)) / 256)
    with (Py.Z_of_byte hi + 256 * k).
  2:{ apply (Z.div_unique _ _ _ (Py.Z_of_byte lo)); lia. }
  replace ((Py.Z_of_byte hi + 256 * k) mod 256) with (Py.Z_of_byte hi).
  2:{ apply (Z.mod_unique _ _ k); lia. }
  by rewrite !byte_of_Z_of_byte.
Qed.

(** Decoding a buffer of even length and encoding the samples gives the
    buffer back. *)
Lemma tobytes_int16_array (bs : bytes) :
  Nat.even (length bs) = true -> Np.tobytes_int16 (Np.int16_array bs) = bs.
Proof.
  induction bs as [| |lo hi bs IH] using pair_ind; [done|done|].
  intros Heven. cbn [Np.int16_array]. unfold Np.tobytes_int16 in *.
  cbn [flat_map]. rewrite pack_of_int16, IH; [done|exact Heven].
Qed.

(** The layout of a file [wavfile.write] produces. *)
Lemma file_bytes_layout (rate : Z) (samples : list Z) :
  Wavfile.file_bytes rate samples
  = (Py.b "RIFF" ++ Py.pack_u32 (36 + Np.nbytes_int16 samples)
     ++ Py.b "WAVE" ++ Py.b "fmt " ++ Py.pack_u32 16
     ++ Wavfile.fmt_chunk_data rate
     ++ Py.b "data" ++ Py.pack_u32 (Np.nbytes_int16 samples))
    ++ Np.tobytes_int16 samples.
Proof.
  unfold Wavfile.file_bytes. cbv zeta. rewrite fmt_chunk_data_length.
  rewrite !length_app, fmt_chunk_data_length, tobytes_length.
  unfold Np.nbytes_int16.
  replace (Z.of_nat (length (Py.b "WAVE") + (length (Py.b "fmt ")
             + (length (Py.pack_u32 (Z.of_nat 16))
                + (16 + (length (Py.b "data")
                         + (length (Py.pack_u32 (2 * Z.of_nat (length samples)))
                            + 2 * length samples)))))))
    with (36 + 2 * Z.of_nat (length samples)) by (simpl length; lia).
  by rewrite <- !(assoc_L (++)).
Qed.

(** A recording the script accepts is stored as its bytes behind a header
    of 44 bytes: the RIFF tag and size, the format chunk of PCM data of one
    channel at 44100 Hz and 16 bits (88200 bytes a second, two bytes a
    frame), the data tag and size.  The recording bytes are not inspected:
    whatever they are, they become the samples of the file, and reading the
    file gives them back, two bytes a sample. *)
Theorem recorded_file_is_header_and_bytes (audio_bytes : bytes) (w : World) :
  Nat.Even (length audio_bytes) ->
  36 + Z.of_nat (length audio_bytes) <= 4294967295 ->
  let size := Z.of_nat (length audio_bytes) in
  let header :=
    Py.b "RIFF" ++ Py.pack_u32 (36 + size) ++ Py.b "WAVE" ++ Py.b "fmt "
    ++ [x10; x00; x00; x00;  x01; x00;  x01; x00;  x44; xac; x00; x00;
        x88; x58; x01; x00;  x02; x00;  x10; x00]
    ++ Py.b "data" ++ Py.pack_u32 size in
  let filename := Uuid.str (entropy w (drawn w)) +:+ ".wav" in
  let path := Py.os_path_join RECORDED_DIR [filename] in
  exists w',
    save_recorded_audio audio_bytes w = Ok (path, filename, "recorded") w'
    /\ fs w' = <[path := header ++ audio_bytes]> (fs w)
    /\ length header = 44%nat
    /\ Wavfile.read (header ++ audio_bytes)
       = Some (44100, Np.int16_array audio_bytes)
    /\ Np.tobytes_int16 (Np.int16_array audio_bytes) = audio_bytes.
Proof.
  intros Heven Hfits. cbv zeta. apply Nat.even_spec in Heven.
  pose proof (even_half _ Heven) as Hhalf.
  assert (Np.nbytes_int16 (Np.int16_array audio_bytes)
          = Z.of_nat (length audio_bytes)) as Hsize.
  { unfold Np.nbytes_int16. rewrite int16_array_length. lia. }
  pose proof (read_file_bytes 44100 (Np.int16_array audio_bytes)
                ltac:(lia) (int16_array_range _) ltac:(lia)) as Hread.
  rewrite file_bytes_layout, tobytes_int16_array, Hsize in Hread by done.
  rewrite save_recorded_audio_eq. cbv zeta. rewrite Heven, Hsize.
  destruct (Z.gtb_spec (36 + Z.of_nat (length audio_bytes)) 4294967295) as [?|_];
    [lia|].
  eexists. split; [reflexivity|]. world_norm.
  rewrite insert_insert_eq, file_bytes_layout, tobytes_int16_array, Hsize by done.
  split; [reflexivity|]. split; [reflexivity|]. split; [exact Hread|done].
Qed.

End RecordedFile.

Section Frames.
Context `{Config, Scipy}.

(** Persisting a sample touches one path.  Whatever file is uploaded, and
    whatever bytes are recorded, also when the recording is refused, the
    files at every other path are as they were, among them the ledger; the
    hub and the trace of calls to it are as they were; and one identifier
    was drawn. *)
Theorem persist_touches_one_path (w : World) :
  (forall uploaded_file,
      let o := save_uploaded_file uploaded_file w in
      let filename := Uuid.str (entropy w (drawn w)) +:+ "."
                      +:+ Py.lower (Py.last_item (Py.split "." (name uploaded_file))) in
      let path := Py.os_path_join UPLOADED_DIR [filename] in
      (forall p, p <> path -> fs (world_of o) !! p = fs w !! p)
      /\ fs (world_of o) !! METADATA_PATH = fs w !! METADATA_PATH
      /\ hub (world_of o) = hub w
      /\ hub_calls (events_since w (world_of o)) = []
      /\ drawn (world_of o) = S (drawn w))
  /\ (forall audio_bytes,
        let o := save_recorded_audio audio_bytes w in
        let filename := Uuid.str (entropy w (drawn w)) +:+ ".wav" in
        let path := Py.os_path_join RECORDED_DIR [filename] in
        (forall p, p <> path -> fs (world_of o) !! p = fs w !! p)
        /\ fs (world_of o) !! METADATA_PATH = fs w !! METADATA_PATH
        /\ hub (world_of o) = hub w
        /\ hub_calls (events_since w (world_of o)) = []
        /\ drawn (world_of o) = S (drawn w)).
Proof.
  split.
  - intros uploaded_file. cbv zeta. rewrite save_uploaded_file_eq. cbv zeta.
    pose proof (uploaded_path_ne_metadata
                  (Uuid.str (entropy w (drawn w)) +:+ "."
                   +:+ Py.lower (Py.last_item (Py.split "." (name uploaded_file))))
                  (str_relative _ _)) as Hne.
    unfold events_since. world_norm. rewrite drop_app_length.
    split; [|by rewrite lookup_insert_ne].
    intros p Hp. by rewrite lookup_insert_ne.
  - intros audio_bytes. cbv zeta. rewrite save_recorded_audio_eq. cbv zeta.
    pose proof (recorded_path_ne_metadata
                  (Uuid.str (entropy w (drawn w)) +:+ ".wav")
                  (str_relative _ _)) as Hne.
    destruct (Nat.even _);
      [destruct (_ >? _); [destruct (wavfile_write_oversized _ _)|]|];
      unfold events_since; world_norm;
      rewrite ?drop_app_length, ?drop_all, ?lookup_insert_ne by done;
      (split; [|done]); intros p Hp; by rewrite ?lookup_insert_ne.
Qed.

End Frames.

Section Publishing.
Context `{Config}.

(** Publishing again changes nothing, and publishing removes nothing.  With
    a ledger on disk, a publish ends normally and leaves the local files as
    they were; every path the repository held before is still held after;
    and a second publish right after the first leaves every path of the
    repository with the content the first gave it. *)
Theorem publish_is_idempotent (w : World) (ledger : bytes) :
  fs w !! METADATA_PATH = Some ledger ->
  let key := ("dataset", HF_REPO_ID) in
  exists w1 w2 remote1 remote2,
    push_to_huggingface w = Ok tt w1
    /\ push_to_huggingface w1 = Ok tt w2
    /\ fs w1 = fs w /\ fs w2 = fs w
    /\ hub w1 !! key = Some remote1
    /\ hub w2 !! key = Some remote2
    /\ (forall rel, remote2 rel = remote1 rel)
    /\ (forall remote0 rel,
          hub w !! key = Some remote0 -> is_Some (remote0 rel) ->
          is_Some (remote1 rel))
    /\ (forall other, other <> key -> hub w2 !! other = hub w !! other).
Proof.
  intros Hledger. cbv zeta.
  rewrite push_to_huggingface_eq. cbv zeta. rewrite Hledger.
  eexists _, _, _, _. split; [reflexivity|].
  rewrite push_to_huggingface_eq. cbv zeta. cbn [fs hub]. rewrite Hledger.
  split; [reflexivity|]. cbn [fs hub].
  rewrite !lookup_insert_eq. cbn [default].
  split; [done|]. split; [done|]. split; [reflexivity|]. split; [reflexivity|].
  split; [|split].
  - intros rel. cbv beta. destruct (String.eqb rel "metadata.csv") eqn:Hrel; [done|].
    cbv beta delta [Hub.mirror id]. rewrite Hrel.
    destruct (Py.startswith_sep rel); [done|].
    by destruct (fs w !! (_ +:+ _)).
  - intros remote0 rel Hrepo Hheld. cbv beta. rewrite Hrepo. cbn [default].
    destruct (String.eqb rel "metadata.csv"); [by eexists|].
    cbv beta delta [Hub.mirror id]. destruct (Py.startswith_sep rel); [done|].
    destruct (fs w !! (_ +:+ _)); [by eexists|done].
  - intros other Hother. by rewrite !lookup_insert_ne.
Qed.

End Publishing.

Section Ledger.
Context `{Config, Pandas}.

Local Abbreviation new_row audio_type filename text :=
  (Pd.DataFrame_of_record
     [("audio", audio_ref audio_type filename); ("text", text)]) (only parsing).

(** Two appends, one after the other.  The second append does not extend
    the frame the first one wrote: it loads the ledger file again.  When
    pandas loads what the first append wrote, both end normally, the ledger
    holds the loaded rows followed by the second row, and no other file
    changed; when the rows pandas loads are the rows written, the ledger
    holds the rows of the start followed by the two new rows in the order
    of the appends. *)
Theorem appends_accumulate_in_order
    (type1 file1 text1 type2 file2 text2 : string) (w : World)
    (df1 loaded : Pd.DataFrame) :
  let row1 : gmap string string :=
    list_to_map [("audio", audio_ref type1 file1); ("text", text1)] in
  let row2 : gmap string string :=
    list_to_map [("audio", audio_ref type2 file2); ("text", text2)] in
  (fs w !! METADATA_PATH = None /\ df1 = new_row type1 file1 text1)
  \/ (exists contents df0,
        fs w !! METADATA_PATH = Some contents
        /\ read_csv contents = Returned df0
        /\ df1 = Pd.concat df0 (new_row type1 file1 text1)) ->
  read_csv (to_csv df1 false) = Returned loaded ->
  exists w1 w2 df2,
    save_metadata type1 file1 text1 w = Ok tt w1
    /\ fs w1 !! METADATA_PATH = Some (to_csv df1 false)
    /\ save_metadata type2 file2 text2 w1 = Ok tt w2
    /\ fs w2 = <[METADATA_PATH := to_csv df2 false]> (fs w)
    /\ Pd.rows df2 = Pd.rows loaded ++ [row2]
    /\ (Pd.rows loaded = Pd.rows df1 ->
        exists rows0,
          Pd.rows df2 = rows0 ++ [row1; row2]
          /\ (fs w !! METADATA_PATH = None -> rows0 = [])
          /\ (forall contents df0,
                fs w !! METADATA_PATH = Some contents ->
                read_csv contents = Returned df0 -> rows0 = Pd.rows df0)).
Proof.
  cbv zeta. intros Hdf1 Hloaded.
  assert (save_metadata type1 file1 text1 w
          = Ok tt (log (Print ("✅ Metadata saved: " +:+ METADATA_PATH))
                     (log (Wrote METADATA_PATH (to_csv df1 false))
                        (set_fs <[METADATA_PATH := to_csv df1 false]> w))))
    as Hfirst.
  { rewrite save_metadata_eq. cbv zeta.
    destruct Hdf1 as [[-> ->]|(contents & df0 & -> & -> & ->)]; reflexivity. }
  eexists _, _, (Pd.concat loaded (new_row type2 file2 text2)).
  split; [exact Hfirst|]. world_norm.
  split; [by rewrite lookup_insert_eq|].
  rewrite save_metadata_eq. cbv zeta. world_norm.
  rewrite lookup_insert_eq, Hloaded.
  split; [reflexivity|]. world_norm. rewrite insert_insert_eq.
  split; [reflexivity|]. split; [reflexivity|].
  intros Hrows. cbn [Pd.rows Pd.concat Pd.DataFrame_of_record]. rewrite Hrows.
  destruct Hdf1 as [[Hnone ->]|(contents & df0 & Hsome & Hread & ->)];
    cbn [Pd.rows Pd.concat Pd.DataFrame_of_record].
  - exists []. split; [done|]. split; [done|]. intros ? ? ?. congruence.
  - exists (Pd.rows df0). rewrite <- (assoc_L (++)). split; [done|].
    split; [congruence|]. intros ? ? ? ?. congruence.
Qed.

End Ledger.

Section UploadNames.
Context `{Config}.

Lemma split_app_sep (sep : ascii) (s t : string) :
  Py.sep_free sep s = true ->
  Py.split sep (s +:+ String sep t) = s :: Py.split sep t.
Proof.
  induction s as [|c s IH]; intros Hfree.
  - rewrite sapp_nil_l. cbn [Py.split]. by rewrite Ascii.eqb_refl.
  - cbn [Py.sep_free] in Hfree. apply andb_prop in Hfree as [Hc Hs].
    rewrite sapp_cons. cbn [Py.split]. apply negb_true_iff in Hc.
    by rewrite Hc, IH.
Qed.

(** The name a stored upload gets, at the edges of [split(".")[-1]].  The
    stored name always holds exactly one dot: split at dots it is the
    identifier and the extension.  A name without a dot is its own
    extension, lower-cased, so [README] is stored as [{id}.readme]; a name
    that ends in a dot has the empty extension and is stored as [{id}.];
    and the extension of the stored name, taken the way the script takes
    it, is the extension again. *)
Theorem stored_name_has_one_dot (contents : bytes) (w : World) :
  let id := Uuid.str (entropy w (drawn w)) in
  (forall uploaded_file,
      exists path filename ext w',
        save_uploaded_file uploaded_file w = Ok (path, filename, "uploaded") w'
        /\ Py.split "." filename = [id; ext]
        /\ String.length filename = (37 + String.length ext)%nat
        /\ Py.lower (Py.last_item (Py.split "." filename)) = Py.lower ext)
  /\ (forall original,
        Py.sep_free "." original = true ->
        exists path w',
          save_uploaded_file (mkUploadedFile original contents) w
          = Ok (path, id +:+ "." +:+ Py.lower original, "uploaded") w')
  /\ (forall stem,
        exists path w',
          save_uploaded_file (mkUploadedFile (stem +:+ ".") contents) w
          = Ok (path, id +:+ ".", "uploaded") w').
Proof.
  cbv zeta. split; [|split].
  - intros uploaded_file. rewrite save_uploaded_file_eq. cbv zeta.
    eexists _, _, _, _. split; [reflexivity|].
    assert (Py.sep_free "."
              (Py.lower (Py.last_item (Py.split "." (name uploaded_file))))
            = true) as Hext.
    { by rewrite lower_dot_free, last_split_after_last, after_last_sep_free. }
    change (Uuid.str (entropy w (drawn w)) +:+ "." +:+ ?e)
      with (Uuid.str (entropy w (drawn w)) +:+ String "." e).
    rewrite split_app_sep, split_sep_free by (done || apply str_dot_free).
    split; [reflexivity|].
    rewrite sapp_length, str_length. split; [done|]. done.
  - intros original Horiginal. rewrite save_uploaded_file_eq. cbv zeta. cbn [name].
    rewrite split_sep_free by done. by eexists _, _.
  - intros stem. rewrite save_uploaded_file_eq. cbv zeta. cbn [name].
    rewrite last_split_after_last, (after_last_app "." stem EmptyString) by done.
    by eexists _, _.
Qed.

End UploadNames.

Section Script.
Context `{Config, Pandas, Whisper, Scipy}.

(** A run of the script with nothing submitted: no recording (or an empty
    one) and no upload.  It writes no file, leaves the hub alone, draws no
    identifier, and calls neither the model nor the hub.  Without a ledger
    it ends normally and shows no table; with a ledger that loads it ends
    normally and the last thing shown is the loaded table; with a ledger
    that does not load it ends with pandas' exception. *)
Theorem idle_run_changes_nothing (audio_bytes : option bytes) (w : World) :
  audio_bytes = None \/ audio_bytes = Some [] ->
  let o := app_py audio_bytes None w in
  let events := events_since w (world_of o) in
  fs (world_of o) = fs w
  /\ hub (world_of o) = hub w
  /\ drawn (world_of o) = drawn w
  /\ List.filter (is_pipeline_event METADATA_PATH) events = []
  /\ (fs w !! METADATA_PATH = None ->
      o = Ok tt (world_of o) /\ forall df, StDataframe df ∉ events)
  /\ (forall contents,
        fs w !! METADATA_PATH = Some contents ->
        match read_csv contents with
        | Returned df =>
            o = Ok tt (world_of o) /\ last events = Some (StDataframe df)
        | Raised e => o = Raise e (world_of o)
        end).
Proof.
  intros Hidle. cbv zeta.
  assert (app_py audio_bytes None w
          = display_metadata
              (log (St "subheader" "📂 Upload audio file")
                 (log (St "info" "🎤 Click the button above to record your voice. Allow microphone access in your browser.")
                    (log (St "subheader" "🎤 Record your voice")
                       (log (St "write" "Record or upload voice → Transcribe → Save to Hugging Face")
                          (log (St "title" "🎙️ Voice Dataset Collector") w))))))
    as ->.
  { by destruct Hidle as [-> | ->]. }
  rewrite display_metadata_eq. cbv zeta. cbn [log fs].
  destruct (fs w !! METADATA_PATH) as [contents|] eqn:Hfile.
  - destruct (read_csv contents) as [df|e] eqn:Hread;
      unfold events_since; world_norm; rewrite drop_app_length;
      (split; [done|]); (split; [done|]); (split; [done|]); (split; [done|]);
      (split; [done|]); intros ? [= <-]; by rewrite Hread.
  - unfold events_since. world_norm. rewrite drop_app_length.
    split; [done|]. split; [done|]. split; [done|]. split; [done|].
    split; [|done]. intros _. split; [done|].
    intros df Hin. elem_cases Hin.
Qed.

End Script.

Section UploadRuns.
Context `{Config, Pandas, Whisper}.

(** The upload tab on a file: the sample is stored and played, then the
    steps both tabs share are run. *)
Lemma upload_tab_steps (file : UploadedFile) (w : World) :
  let filename := Uuid.str (entropy w (drawn w)) +:+ "."
                  +:+ Py.lower (Py.last_item (Py.split "." (name file))) in
  let path := Py.os_path_join UPLOADED_DIR [filename] in
  upload_tab (Some file) w
  = orchestrate "✅ Uploaded audio saved & uploaded!" (path, filename, "uploaded")
      (log (St "audio" path)
         (log (Wrote path (data file))
            (set_fs <[path := data file]>
               (draw (log (St "subheader" "📂 Upload audio file") w))))).
Proof.
  cbv zeta. rewrite upload_tab_eq. cbv zeta. unfold bind at 1.
  by rewrite save_uploaded_file_eq.
Qed.

(** The events of a run of the upload tab on a file: the sample is stored
    and played, the model is called on the stored copy, and what follows
    depends on what the model did. *)
Lemma upload_tab_events (file : UploadedFile) (w : World) :
  let o := upload_tab (Some file) w in
  let filename := Uuid.str (entropy w (drawn w)) +:+ "."
                  +:+ Py.lower (Py.last_item (Py.split "." (name file))) in
  let path := Py.os_path_join UPLOADED_DIR [filename] in
  let result := model_transcribe path (<[path := data file]> (fs w)) in
  exists rest,
    events_since w (world_of o)
    = [St "subheader" "📂 Upload audio file"; Wrote path (data file);
       St "audio" path; Transcribe path result] ++ rest
    /\ ((exists e, result = Raised e /\ o = Ok tt (world_of o)
           /\ rest = [St "error" ("Transcription failed: " +:+ exc_msg e)])
        \/ (result = Returned EmptyString /\ o = Ok tt (world_of o) /\ rest = [])
        \/ (exists text e,
              result = Returned text /\ text <> EmptyString
              /\ o = Raise e (world_of o)
              /\ rest = [St "markdown" "### 📝 Transcription"; St "write" text])
        \/ (exists text df,
              result = Returned text /\ text <> EmptyString
              /\ o = Ok tt (world_of o)
              /\ fs (world_of o) !! METADATA_PATH = Some (to_csv df false)
              /\ rest = [St "markdown" "### 📝 Transcription"; St "write" text;
                         Wrote METADATA_PATH (to_csv df false);
                         Print ("✅ Metadata saved: " +:+ METADATA_PATH);
                         CreateRepo HF_REPO_ID "dataset" true HF_TOKEN;
                         Print "✅ Repo exists or created successfully";
                         UploadFolder (Py.os_path_join BASE_DIR ["audio"])
                           HF_REPO_ID "dataset" HF_TOKEN;
                         UploadFile METADATA_PATH "metadata.csv" HF_REPO_ID
                           "dataset" HF_TOKEN;
                         Print "✅ Upload complete";
                         St "success" "✅ Uploaded audio saved & uploaded!"])).
Proof.
  cbv zeta. rewrite upload_tab_steps. cbv zeta.
  match goal with
  | |- context [orchestrate ?done (?p, ?f, ?t) ?w1] =>
      destruct (orchestrate_run done p f t w1)
        as [(e & Hmodel & Ho & _ & _ & Htrace)
           |[(Hmodel & Ho & _ & _ & Htrace)
            |[(text & contents & e & Hmodel & Htext & _ & _ & Ho & _ & _ & Htrace)
             |(text & df & Hmodel & Htext & _ & Ho & Hfs & _ & Htrace)]]];
      revert Hmodel Ho Htrace; try revert Hfs;
      generalize (orchestrate done (p, f, t) w1)
  end; intros o; world_norm; intros; unfold events_since;
    match goal with Ht : trace _ = _ |- _ => rewrite Ht end;
    rewrite drop_app_length;
    match goal with Hm : model_transcribe _ _ = _ |- _ => rewrite Hm end;
    eexists; (split; [reflexivity|]).
  - left. by exists e.
  - right; left. done.
  - right; right; left. by exists text, e.
  - right; right; right. exists text, df. repeat split; try done.
    match goal with Hf : fs _ = _ |- _ => rewrite Hf end.
    by rewrite lookup_insert_eq.
Qed.

(** Every upload is transcribed once, from the stored copy: in a run of the
    upload tab on a file, the model is called exactly once, with the path
    the file was stored at, after the file is on disk with the uploaded
    bytes, and before any write of the ledger or call to the hub. *)
Theorem upload_is_transcribed_once (file : UploadedFile) (w : World) :
  let o := upload_tab (Some file) w in
  let events := events_since w (world_of o) in
  let filename := Uuid.str (entropy w (drawn w)) +:+ "."
                  +:+ Py.lower (Py.last_item (Py.split "." (name file))) in
  let path := Py.os_path_join UPLOADED_DIR [filename] in
  let result := model_transcribe path (<[path := data file]> (fs w)) in
  List.filter (fun e => match e with Transcribe _ _ => true | _ => false end)
    events = [Transcribe path result]
  /\ fs (world_of o) !! path = Some (data file)
  /\ exists rest,
       events = [St "subheader" "📂 Upload audio file"; Wrote path (data file);
                 St "audio" path; Transcribe path result] ++ rest.
Proof.
  cbv zeta.
  destruct (upload_tab_events file w) as (rest & Hevents & Hrest).
  cbv zeta in Hevents, Hrest. rewrite Hevents. split; [|split; [|by exists rest]].
  - destruct Hrest
      as [(e & _ & _ & ->)
         |[(_ & _ & ->)
          |[(text & e & _ & _ & _ & ->)|(text & df & _ & _ & _ & _ & ->)]]];
      reflexivity.
  - pose proof (uploaded_path_ne_metadata
                  (Uuid.str (entropy w (drawn w)) +:+ "."
                   +:+ Py.lower (Py.last_item (Py.split "." (name file))))
                  (str_relative _ _)) as Hne.
    rewrite upload_tab_steps. cbv zeta.
    match goal with
    | |- context [orchestrate ?done (?p, ?f, ?t) ?w1] =>
        destruct (orchestrate_run done p f t w1)
          as [(e & _ & _ & Hfs & _)
             |[(_ & _ & Hfs & _)
              |[(text & contents & e & _ & _ & _ & _ & _ & Hfs & _)
               |(text & df & _ & _ & _ & _ & Hfs & _)]]];
        rewrite Hfs
    end; world_norm; by rewrite ?(lookup_insert_ne _ METADATA_PATH), lookup_insert_eq.
Qed.

(** What the user is told matches what happened.  In a run of the upload
    tab on a file, the closing message is shown exactly when the ledger was
    written and the run ended normally; the error message is shown exactly
    when the model raised, and carries the message of the exception; and
    when the model returns the empty string the user is shown nothing after
    the player: no transcript, no error and no closing message. *)
Theorem upload_feedback_matches_outcome (file : UploadedFile) (w : World) :
  let o := upload_tab (Some file) w in
  let events := events_since w (world_of o) in
  (St "success" "✅ Uploaded audio saved & uploaded!" ∈ events
   <-> (exists written, Wrote METADATA_PATH written ∈ events)
       /\ o = Ok tt (world_of o))
  /\ (forall message,
        St "error" message ∈ events
        <-> exists p e, Transcribe p (Raised e) ∈ events
                        /\ message = "Transcription failed: " +:+ exc_msg e)
  /\ ((exists p, Transcribe p (Returned EmptyString) ∈ events) ->
      o = Ok tt (world_of o)
      /\ exists p, last events = Some (Transcribe p (Returned EmptyString))).
Proof.
  cbv zeta.
  pose proof (uploaded_path_ne_metadata
                (Uuid.str (entropy w (drawn w)) +:+ "."
                 +:+ Py.lower (Py.last_item (Py.split "." (name file))))
                (str_relative _ _)) as Hne.
  destruct (upload_tab_events file w) as (rest & Hevents & Hrest).
  cbv zeta in Hevents, Hrest. rewrite Hevents. clear Hevents.
  destruct Hrest
    as [(e & -> & Ho & ->)
       |[(-> & Ho & ->)
        |[(text & e & -> & Htext & Ho & ->)
         |(text & df & -> & Htext & Ho & _ & ->)]]];
    (split; [split|split; [intros message; split|]]).
  all: try (intros Hin; elem_cases Hin; fail).
  all: try (intros [[written Hin] _]; elem_cases Hin; congruence).
  all: try (intros (p & e' & Hin & _); elem_cases Hin; fail).
  all: try (intros (p & Hin); elem_cases Hin; try congruence; fail).
  all: cbn [List.app].
  - intros Hin. elem_cases Hin. injection Hin as ->.
    eexists _, _. split; [|reflexivity]. do 3 right. left.
  - intros (p & e' & Hin & ->). elem_cases Hin. injection Hin as _ <-.
    do 4 right. left.
  - intros _. split; [done|]. by eexists.
  - intros _. split; [|done]. eexists. do 6 right. left.
  - intros _. do 13 right. left.
Qed.

End UploadRuns.

Section RecordRuns.
Context `{Config, Pandas, Whisper, Scipy}.

Local Abbreviation new_row audio_type filename text :=
  (Pd.DataFrame_of_record
     [("audio", audio_ref audio_type filename); ("text", text)]) (only parsing).

(** The path of a recorded sample below the audio folder. *)
Lemma recorded_path_in_audio_folder (filename : string) :
  Py.startswith_sep filename = false ->
  Py.os_path_join RECORDED_DIR [filename]
  = Py.os_path_join BASE_DIR ["audio"] +:+ "/" +:+ "recorded/" +:+ filename.
Proof.
  intros Hrel. rewrite recorded_path_eq, audio_folder_eq by done.
  by rewrite !sapp_assoc.
Qed.

(** A run of the record tab from start to end when everything goes well:
    the recording is not empty, has an even number of bytes and fits a WAV
    file, the model returns a transcript that is not empty for the stored
    file, and the ledger is absent or loads.  The run ends normally; the
    WAV file is on disk and reads back as the samples of the recording; the
    ledger is written from the frame whose last row names the sample
    [audio/recorded/{id}.wav] with the transcript; the dataset was published
    once; and the repository holds the ledger at [metadata.csv] and the WAV
    file at [recorded/{id}.wav]. *)
Theorem recording_submission_end_to_end (audio_bytes : bytes) (w : World)
    (text : string) (df : Pd.DataFrame) :
  let key := ("dataset", HF_REPO_ID) in
  let filename := Uuid.str (entropy w (drawn w)) +:+ ".wav" in
  let path := Py.os_path_join RECORDED_DIR [filename] in
  let file := Wavfile.file_bytes 44100 (Np.int16_array audio_bytes) in
  audio_bytes <> [] ->
  Nat.Even (length audio_bytes) ->
  36 + Z.of_nat (length audio_bytes) <= 4294967295 ->
  model_transcribe path (<[path := file]> (fs w)) = Returned text ->
  text <> EmptyString ->
  (fs w !! METADATA_PATH = None /\ df = new_row "recorded" filename text)
  \/ (exists contents df0,
        fs w !! METADATA_PATH = Some contents
        /\ read_csv contents = Returned df0
        /\ df = Pd.concat df0 (new_row "recorded" filename text)) ->
  exists w' remote,
    record_tab (Some audio_bytes) w = Ok tt w'
    /\ fs w' = <[METADATA_PATH := to_csv df false]> (<[path := file]> (fs w))
    /\ Wavfile.read file = Some (44100, Np.int16_array audio_bytes)
    /\ last (Pd.rows df)
       = Some (list_to_map [("audio", "audio/recorded/" +:+ filename);
                            ("text", text)])
    /\ publish_count (events_since w w') = 1%nat
    /\ last (trace w') = Some (St "success" "✅ Recorded audio saved & uploaded!")
    /\ hub w' !! key = Some remote
    /\ remote "metadata.csv" = Some (to_csv df false)
    /\ remote ("recorded/" +:+ filename) = Some file.
Proof.
  cbv zeta. intros Hsome Heven Hfits Hmodel Htext Hdf.
  apply Nat.even_spec in Heven.
  pose proof (even_half _ Heven) as Hhalf.
  assert (Np.nbytes_int16 (Np.int16_array audio_bytes)
          = Z.of_nat (length audio_bytes)) as Hsize.
  { unfold Np.nbytes_int16. rewrite int16_array_length. lia. }
  pose proof (str_relative (entropy w (drawn w)) ".wav") as Hrel.
  pose proof (recorded_path_ne_metadata _ Hrel) as Hne.
  assert (forall t, Py.startswith_sep ("recorded/" +:+ t) = false) as Hrec
    by reflexivity.
  rewrite record_tab_eq. cbv zeta.
  destruct audio_bytes as [|x recording]; [done|].
  unfold bind at 1. rewrite save_recorded_audio_eq. cbv zeta.
  rewrite Heven, Hsize.
  destruct (Z.gtb_spec (36 + Z.of_nat (length (x :: recording))) 4294967295)
    as [?|_]; [lia|].
  rewrite orchestrate_eq. cbv zeta. world_norm.
  rewrite insert_insert_eq, Hmodel.
  destruct text as [|c text]; [done|].
  rewrite append_and_publish_eq. world_norm.
  rewrite lookup_insert_ne by done.
  assert (exists contents,
            match fs w !! METADATA_PATH with
            | None => df = new_row "recorded"
                             (Uuid.str (entropy w (drawn w)) +:+ ".wav")
                             (String c text)
            | Some contents' =>
                contents' = contents
                /\ exists df0, read_csv contents = Returned df0
                   /\ df = Pd.concat df0
                             (new_row "recorded"
                                (Uuid.str (entropy w (drawn w)) +:+ ".wav")
                                (String c text))
            end) as [contents Hcases].
  { destruct Hdf as [[-> ->]|(contents & df0 & -> & Hread & ->)];
      [by exists []|]. exists contents. split; [done|]. by exists df0. }
  assert (last (Pd.rows df)
          = Some (list_to_map
                    [("audio", "audio/recorded/"
                               +:+ Uuid.str (entropy w (drawn w)) +:+ ".wav");
                     ("text", String c text)])) as Hlast.
  { destruct Hdf as [[_ ->]|(? & df0 & _ & _ & ->)];
      cbn [Pd.rows Pd.concat Pd.DataFrame_of_record]; by rewrite ?last_snoc. }
  destruct (fs w !! METADATA_PATH) as [contents'|].
  - destruct Hcases as (-> & df0 & Hread & ->). rewrite Hread.
    eexists _, _. split; [reflexivity|]. unfold events_since. world_norm.
    rewrite drop_app_length, lookup_insert_eq.
    split; [done|]. split.
    { apply read_file_bytes; [lia|apply int16_array_range|lia]. }
    split; [exact Hlast|]. split; [done|]. split; [by rewrite last_app_cons|].
    split; [reflexivity|]. cbv beta. split; [done|].
    rewrite eqb_ne by done. unfold Hub.mirror. rewrite Hrec.
    rewrite <- recorded_path_in_audio_folder by done.
    by rewrite lookup_insert_ne, lookup_insert_eq.
  - rewrite Hcases.
    eexists _, _. split; [reflexivity|]. unfold events_since. world_norm.
    rewrite drop_app_length, lookup_insert_eq.
    split; [done|]. split.
    { apply read_file_bytes; [lia|apply int16_array_range|lia]. }
    split; [by rewrite <- Hcases|]. split; [done|].
    split; [by rewrite last_app_cons|].
    split; [reflexivity|]. cbv beta. split; [done|].
    rewrite eqb_ne by done. unfold Hub.mirror. rewrite Hrec.
    rewrite <- recorded_path_in_audio_folder by done.
    by rewrite lookup_insert_ne, lookup_insert_eq.
Qed.

End RecordRuns.

(* ===================================================================== *)
(** * Part VII: the further properties at concrete inputs *)
(* ===================================================================== *)

(** An empty ledger file: pandas refuses it. *)
Lemma empty_ledger_is_refused :
  @read_csv SimpleCsv.pandas []
  = Raised (mkExc "EmptyDataError" "No columns to parse from file").
Proof. vm_compute. reflexivity. Qed.

(** An upload to a deployment whose ledger file is empty. *)
Lemma unreadable_ledger_is_kept_witness :
  let w := set_fs <[@METADATA_PATH Demo.config := []]> Demo.fresh in
  let o := @run_tab Demo.config SimpleCsv.pandas Demo.whisper_hello Demo.scipy
             (Upload (Some Demo.clip)) w in
  fs (world_of o) !! @METADATA_PATH Demo.config = Some []
  /\ hub (world_of o) = hub w
  /\ hub_calls (events_since w (world_of o)) = [].
Proof.
  cbv zeta.
  destruct (@unreadable_ledger_is_kept
              Demo.config SimpleCsv.pandas Demo.whisper_hello Demo.scipy
              (Upload (Some Demo.clip))
              (set_fs <[@METADATA_PATH Demo.config := []]> Demo.fresh)
              [] (mkExc "EmptyDataError" "No columns to parse from file")
              (lookup_insert_eq _ _ _) empty_ledger_is_refused)
    as (_ & Hfs & _ & Hhub & Hcalls & _).
  by split.
Defined.


(** The upload of [clip.MP3] to a fresh deployment whose model hears
    "hello", through the whole script. *)
Lemma script_upload_end_to_end_witness :
  exists w',
    @app_py Demo.config SimpleCsv.pandas Demo.whisper_hello Demo.scipy
      None (Some Demo.clip) Demo.fresh = Ok tt w'
    /\ publish_count (events_since Demo.fresh w') = 1%nat
    /\ last (trace w')
       = Some (StDataframe
                 (Pd.DataFrame_of_record
                    [("audio", "audio/uploaded/" +:+ Uuid.str Demo.uuid_a +:+ ".mp3");
                     ("text", " hello")])).
Proof.
  destruct (@script_upload_end_to_end
              Demo.config SimpleCsv.pandas Demo.whisper_hello Demo.scipy
              Demo.clip Demo.fresh " hello"
              (Pd.DataFrame_of_record
                 [("audio", "audio/uploaded/" +:+ Uuid.str Demo.uuid_a +:+ ".mp3");
                  ("text", " hello")])
              (Pd.DataFrame_of_record
                 [("audio", "audio/uploaded/" +:+ Uuid.str Demo.uuid_a +:+ ".mp3");
                  ("text", " hello")]))
    as (w' & Hrun & _ & _ & Hcount & _ & Hlast).
  - vm_compute. reflexivity.
  - discriminate.
  - left. split; [exact (lookup_empty _)|reflexivity].
  - vm_compute. reflexivity.
  - exists w'. split; [exact Hrun|]. split; [exact Hcount|exact Hlast].
Defined.

(** The same upload: where the sample and the ledger land. *)
Lemma published_upload_location_witness :
  exists w' remote,
    @upload_tab Demo.config SimpleCsv.pandas Demo.whisper_hello
      (Some Demo.clip) Demo.fresh = Ok tt w'
    /\ hub w' !! ("dataset", "user/voice-dataset") = Some remote
    /\ remote ("uploaded/" +:+ Uuid.str Demo.uuid_a +:+ ".mp3")
       = Some [x49; x44; x33].
Proof.
  destruct (@published_upload_location
              Demo.config SimpleCsv.pandas Demo.whisper_hello
              Demo.clip Demo.fresh " hello"
              (Pd.DataFrame_of_record
                 [("audio", "audio/uploaded/" +:+ Uuid.str Demo.uuid_a +:+ ".mp3");
                  ("text", " hello")]))
    as (w' & remote & r & Hrun & Hhub & _ & Hsample & _).
  - vm_compute. reflexivity.
  - discriminate.
  - left. split; [exact (lookup_empty _)|reflexivity].
  - exists w', remote. split; [exact Hrun|]. split; [exact Hhub|exact Hsample].
Defined.

(** The recording of five samples. *)
Lemma recorded_file_is_header_and_bytes_witness :
  exists path filename w' header,
    @save_recorded_audio Demo.config Demo.scipy Demo.recording Demo.fresh
    = Ok (path, filename, "recorded") w'
    /\ fs w' !! path = Some (header ++ Demo.recording)
    /\ length header = 44%nat.
Proof.
  destruct (@recorded_file_is_header_and_bytes
              Demo.config Demo.scipy Demo.recording Demo.fresh)
    as (w' & Hsave & Hfs & Hlen & _).
  - exists 5%nat. reflexivity.
  - vm_compute. discriminate.
  - eexists _, _, w', _. split; [exact Hsave|]. split; [|exact Hlen].
    rewrite Hfs. apply lookup_insert_eq.
Defined.

(** Two publishes of a deployment that holds a ledger. *)
Lemma publish_is_idempotent_witness :
  exists w1 w2,
    @push_to_huggingface Demo.config Demo.fresh_with_ledger3 = Ok tt w1
    /\ @push_to_huggingface Demo.config w1 = Ok tt w2
    /\ fs w2 = fs Demo.fresh_with_ledger3.
Proof.
  destruct (@publish_is_idempotent Demo.config Demo.fresh_with_ledger3
              Demo.ledger3 (lookup_insert_eq _ _ _))
    as (w1 & w2 & remote1 & remote2 & Hfirst & Hsecond & _ & Hfs & _).
  exists w1, w2. split; [exact Hfirst|]. split; [exact Hsecond|exact Hfs].
Defined.

(** Two appends to a fresh deployment. *)
Lemma appends_accumulate_in_order_witness :
  exists w1 w2 df2,
    @save_metadata Demo.config SimpleCsv.pandas "uploaded" "a.mp3" " hi"
      Demo.fresh = Ok tt w1
    /\ @save_metadata Demo.config SimpleCsv.pandas "recorded" "b.wav" " ho" w1
       = Ok tt w2
    /\ Pd.rows df2
       = [list_to_map [("audio", "audio/uploaded/a.mp3"); ("text", " hi")];
          list_to_map [("audio", "audio/recorded/b.wav"); ("text", " ho")]].
Proof.
  destruct (@appends_accumulate_in_order Demo.config SimpleCsv.pandas
              "uploaded" "a.mp3" " hi" "recorded" "b.wav" " ho" Demo.fresh
              (Pd.DataFrame_of_record
                 [("audio", "audio/uploaded/a.mp3"); ("text", " hi")])
              (Pd.DataFrame_of_record
                 [("audio", "audio/uploaded/a.mp3"); ("text", " hi")]))
    as (w1 & w2 & df2 & Hfirst & _ & Hsecond & _ & Hrows & _).
  - left. split; [exact (lookup_empty _)|reflexivity].
  - vm_compute. reflexivity.
  - by exists w1, w2, df2.
Defined.

(** A run with nothing submitted on a fresh deployment. *)
Lemma idle_run_changes_nothing_witness :
  let o := @app_py Demo.config SimpleCsv.pandas Demo.whisper_hello Demo.scipy
             None None Demo.fresh in
  o = Ok tt (world_of o) /\ fs (world_of o) = fs Demo.fresh.
Proof.
  cbv zeta.
  destruct (@idle_run_changes_nothing
              Demo.config SimpleCsv.pandas Demo.whisper_hello Demo.scipy
              None Demo.fresh (or_introl eq_refl))
    as (Hfs & _ & _ & _ & Hnone & _).
  destruct (Hnone (lookup_empty _)) as [Ho _]. by split.
Defined.

(** The recording of five samples on a fresh deployment whose model hears
    "hello". *)
Lemma recording_submission_end_to_end_witness :
  exists w' remote,
    @record_tab Demo.config SimpleCsv.pandas Demo.whisper_hello Demo.scipy
      (Some Demo.recording) Demo.fresh = Ok tt w'
    /\ hub w' !! ("dataset", "user/voice-dataset") = Some remote
    /\ remote ("recorded/" +:+ Uuid.str Demo.uuid_a +:+ ".wav")
       = Some (Wavfile.file_bytes 44100 Demo.samples).
Proof.
  destruct (@recording_submission_end_to_end
              Demo.config SimpleCsv.pandas Demo.whisper_hello Demo.scipy
              Demo.recording Demo.fresh " hello"
              (Pd.DataFrame_of_record
                 [("audio", "audio/recorded/" +:+ Uuid.str Demo.uuid_a +:+ ".wav");
                  ("text", " hello")]))
    as (w' & remote & Hrun & _ & _ & _ & _ & _ & Hhub & _ & Hsample).
  - discriminate.
  - exists 5%nat. reflexivity.
  - vm_compute. discriminate.
  - vm_compute. reflexivity.
  - discriminate.
  - left. split; [exact (lookup_empty _)|reflexivity].
  - exists w', remote. split; [exact Hrun|]. split; [exact Hhub|exact Hsample].
Defined.
